(** * The LLM fallback bridge of Cowrie: handler and cache client

    A shallow embedding of
      - [src/cowrie/core/llm_cache.py]  ([LLMCacheClient], [get_llm_cache_client])
      - [src/cowrie/commands/llm.py]    ([Command_llm.start])
    together with the properties stated about them.

    Python [str] and [bytes] are both rendered as [string] (a sequence of
    bytes holding UTF-8 text), so that [.encode("utf-8")] of text is the
    identity.  [os.environ] is a finite map from names to values.  The
    values that [json.loads] may hand back are the inductive [py_value].
    Effects (log records, the HTTP exchange, terminal writes) are collected
    in a trace, and Python exceptions are threaded through a small
    trace-and-error monad. *)

From stdpp Require Import gmap strings list fin_maps pretty.
From Stdlib Require Import ZArith Ascii String.

Local Open Scope string_scope.
Local Open Scope list_scope.
Local Set Warnings "-register-all".

(** ** Python values *)

(** The values [json.loads] can produce.  A [dict] keeps its items in
    insertion order, one per key.  JSON numbers are kept to the integers: a
    [float] would go through this program exactly as an [int] does (tested
    for being non-zero, and without the methods [get], [encode] and
    [endswith]). *)
Inductive py_value : Type :=
  | PyNone
  | PyBool (b : bool)
  | PyInt (z : Z)
  | PyStr (s : string)
  | PyList (l : list py_value)
  | PyDict (d : list (string * py_value)).

(** [bool(v)], as tested by [if v:] and by [all]. *)
Definition truthy (v : py_value) : bool :=
  match v with
  | PyNone => false
  | PyBool b => b
  | PyInt z => negb (Z.eqb z 0)
  | PyStr s => negb (String.eqb s "")
  | PyList l => match l with [] => false | _ => true end
  | PyDict d => match d with [] => false | _ => true end
  end.

(** [type(v).__name__] *)
Definition type_name (v : py_value) : string :=
  match v with
  | PyNone => "NoneType"
  | PyBool _ => "bool"
  | PyInt _ => "int"
  | PyStr _ => "str"
  | PyList _ => "list"
  | PyDict _ => "dict"
  end.

(** [Optional[str]]: the result type that [query_command] announces. *)
Definition is_optional_str (v : py_value) : bool :=
  match v with
  | PyNone | PyStr _ => true
  | _ => false
  end.

(** [d[k]] for a dict held as its list of items. *)
Fixpoint dict_lookup (d : list (string * py_value)) (k : string) : option py_value :=
  match d with
  | [] => None
  | (k', v) :: d' => if String.eqb k' k then Some v else dict_lookup d' k
  end.

(** [d[k] = v]: replaces the value of an existing key in place, appends a
    new key at the end. *)
Fixpoint dict_set (d : list (string * py_value)) (k : string) (v : py_value)
  : list (string * py_value) :=
  match d with
  | [] => [(k, v)]
  | (k', v') :: d' =>
      if String.eqb k' k then (k', v) :: d' else (k', v') :: dict_set d' k v
  end.

(** ** The process environment *)

(** [os.environ.get(name)]: [None] when unset. *)
Definition environ_get (environ : gmap string string) (name : string) : py_value :=
  match environ !! name with
  | Some s => PyStr s
  | None => PyNone
  end.

(** [os.environ.get(name, dflt)] *)
Definition environ_get_default (environ : gmap string string) (name dflt : string)
  : string :=
  default dflt (environ !! name).

(** [all(vs)] *)
Definition py_all (vs : list py_value) : bool := forallb truthy vs.

(** ** LLMCacheClient *)

Record LLMCacheClient : Type := mkLLMCacheClient {
  url : string;
  port : string;
  endpoint : string;
  full_url : string;
  enabled : bool
}.

(** What the program does to the outside, in the order it does it. *)
Inductive event : Type :=
  | LogMsg (s : string)
  | LogErr (s : string)
  | HttpRequest (method target : string)
                (headers : list (string * list string)) (body : string)
  | ReadBody
  | TermWrite (s : string)
  | CmdExit.

Definition trace := list event.

(** [LLMCacheClient.__init__] (llm_cache.py, lines 52-70) on settings that
    are text: the fields, and the one log record the constructor emits.
    Line 58's [.encode("utf-8")] is the identity here; on a setting whose
    bytes are not UTF-8 it raises instead, which [LLMCacheClient_construct]
    below adds. *)
Definition LLMCacheClient_init (environ : gmap string string)
  : LLMCacheClient * trace :=
  let url := environ_get_default environ "LLM_CACHE_URL" "http://localhost" in
  let port := environ_get_default environ "LLM_CACHE_PORT" "8080" in
  let endpoint := environ_get_default environ "LLM_CACHE_ENDPOINT" "/query" in
  let full_url := url +:+ ":" +:+ port +:+ endpoint in
  let enabled := py_all [ environ_get environ "LLM_CACHE_URL";
                          environ_get environ "LLM_CACHE_PORT";
                          environ_get environ "LLM_CACHE_ENDPOINT" ] in
  (mkLLMCacheClient url port endpoint full_url enabled,
   if enabled
   then [LogMsg ("LLM Cache client initialized: " +:+ full_url)]
   else [LogMsg "LLM Cache client disabled (environment variables not set)"]).

Definition new_client (environ : gmap string string) : LLMCacheClient :=
  fst (LLMCacheClient_init environ).

(** ** Exceptions, generators and Deferreds *)

(** An instance of (a subclass of) [Exception]: its class and [str(e)]. *)
Record PyException : Type := mkException {
  exc_class : string;
  exc_str : string
}.

(** What a [raise] can carry through the body of a generator.
    [defer.returnValue(v)] raises [_DefGen_Return], which derives from
    [BaseException] and is therefore not an [Exception]. *)
Inductive raised : Type :=
  | RaisedException (e : PyException)
  | DefGenReturn (v : py_value).

(** A computation: the events it emitted, then a value or a raise. *)
Definition M (A : Type) : Type := trace * (raised + A).

Definition ret {A} (a : A) : M A := ([], inr a).

Definition bind {A B} (m : M A) (k : A -> M B) : M B :=
  match m with
  | (t, inl r) => (t, inl r)
  | (t, inr a) => let (t', b) := k a in (t ++ t', b)
  end.

Declare Scope py_scope.
Delimit Scope py_scope with py.
Notation "x <- m ;; k" := (bind m (fun x => k))
  (at level 100, m at next level, right associativity) : py_scope.
Notation "m ;; k" := (bind m (fun _ => k))
  (at level 100, right associativity) : py_scope.
Local Open Scope py_scope.

Definition emit (ev : event) : M unit := ([ev], inr tt).
Definition emit_all (t : trace) : M unit := (t, inr tt).
Definition raise {A} (e : PyException) : M A := ([], inl (RaisedException e)).

(** The result of a library call that may raise an [Exception]. *)
Definition lift {A} (r : PyException + A) : M A :=
  match r with
  | inl e => raise e
  | inr a => ret a
  end.

(** [log.msg(s)], [log.err(s)] *)
Definition log_msg (s : string) : M unit := emit (LogMsg s).
Definition log_err (s : string) : M unit := emit (LogErr s).

(** [defer.returnValue(v)] *)
Definition returnValue {A} (v : py_value) : M A := ([], inl (DefGenReturn v)).

(** [try: body  except Exception as e: handler(e)].  Only instances of
    [Exception] are caught; [_DefGen_Return] passes through. *)
Definition try_except_Exception {A} (body : M A) (handler : PyException -> M A)
  : M A :=
  match body with
  | (t, inl (RaisedException e)) => let (t', r) := handler e in (t ++ t', r)
  | other => other
  end.

(** The state in which a [Deferred] ends: fired with a result, or failed. *)
Inductive deferred : Type :=
  | Fired (v : py_value)
  | Failed (e : PyException).

(** [@defer.inlineCallbacks]: the generator's [return v] and
    [defer.returnValue(v)] both fire the Deferred with [v]; an exception
    leaving the generator fails it. *)
Definition inlineCallbacks (g : M py_value) : trace * deferred :=
  match g with
  | (t, inr v) => (t, Fired v)
  | (t, inl (DefGenReturn v)) => (t, Fired v)
  | (t, inl (RaisedException e)) => (t, Failed e)
  end.

(** [x = yield d] inside a generator: the value the Deferred fired with, or
    its failure raised at the [yield]. *)
Definition yield_ (d : trace * deferred) : M py_value :=
  match d with
  | (t, Fired v) => (t, inr v)
  | (t, Failed e) => (t, inl (RaisedException e))
  end.

(** [v.get(key, dflt)]: only a dict has the method. *)
Definition py_get (v : py_value) (key : string) (dflt : py_value) : M py_value :=
  match v with
  | PyDict d => ret (default dflt (dict_lookup d key))
  | _ => raise (mkException "AttributeError"
                  ("'" +:+ type_name v +:+ "' object has no attribute 'get'"))
  end.

(** ** JSONProducer *)

(** The body producer of llm_cache.py, lines 22-40.  A consumer is seen
    through what has been written to it: the chunks handed to
    [consumer.write], oldest first. *)
Module JSONProducer.

Record t : Type := mk {
  body : string;
  length : nat
}.

(** [JSONProducer.__init__] (lines 28-30) *)
Definition __init__ (body : string) : t := mk body (String.length body).

(** [startProducing] (lines 32-34): one write of the whole body, and a
    Deferred that has already fired with None. *)
Definition startProducing (self : t) (consumer : list string)
  : list string * deferred :=
  (consumer ++ [body self], Fired PyNone).

(** [pauseProducing] and [stopProducing] (lines 36-40): [pass]. *)
Definition pauseProducing (self : t) (consumer : list string) : list string :=
  consumer.
Definition stopProducing (self : t) (consumer : list string) : list string :=
  consumer.

End JSONProducer.

(** ** What the client calls outside this repository *)

(** The library functions and the network transport behind
    [query_command].  Each may raise an [Exception]; nothing else is assumed
    about them.
      - [json_dumps v]        is [json.dumps(v)]
      - [agent_request m u h b] is the result of
                              [yield client.Agent(reactor).request(m, u, h, producer of b)]
      - [readBody r]          is the result of [yield client.readBody(r)]
      - [bytes_decode b]      is [b.decode("utf-8")]
      - [json_loads s]        is [json.loads(s)] *)
Record Platform : Type := mkPlatform {
  Response : Type;
  json_dumps : py_value -> PyException + string;
  agent_request : string -> string -> list (string * list string) -> string
                  -> PyException + Response;
  readBody : Response -> PyException + string;
  bytes_decode : string -> PyException + string;
  json_loads : string -> PyException + py_value
}.

(** [str(n)] for a length *)
Definition str_of_len (n : nat) : string := pretty n.

(** Line 88: the request payload. *)
Definition request_payload (command : string) : py_value :=
  PyDict [("content", PyStr command)].

(** Lines 95-98: the request headers for a serialized payload. *)
Definition request_headers (json_data : string) : list (string * list string) :=
  [ ("Content-Type", ["application/json"]);
    ("Content-Length", [str_of_len (String.length json_data)]) ].

(** The [try] block of [query_command] (llm_cache.py, lines 87-118). *)
Definition query_attempt (P : Platform) (self : LLMCacheClient) (command : string)
  : M unit :=
  let payload := request_payload command in
  json_data <- lift (json_dumps P payload) ;;
  let headers := request_headers json_data in
  log_msg ("Querying LLM cache for command: " +:+ command) ;;
  emit (HttpRequest "POST" (full_url self) headers json_data) ;;
  response <- lift (agent_request P "POST" (full_url self) headers json_data) ;;
  emit ReadBody ;;
  body <- lift (readBody P response) ;;
  text <- lift (bytes_decode P body) ;;
  response_data <- lift (json_loads P text) ;;
  llm_response <- py_get response_data "response" (PyStr "") ;;
  log_msg ("LLM cache response received for: " +:+ command) ;;
  returnValue llm_response.

(** The [except Exception as e] block (lines 120-122). *)
Definition query_failed (e : PyException) : M unit :=
  log_err ("Error querying LLM cache: " +:+ exc_str e) ;;
  returnValue PyNone.

(** The generator behind [LLMCacheClient.query_command] (lines 83-122);
    falling off its end returns [None]. *)
Definition query_command_gen (P : Platform) (self : LLMCacheClient)
    (command : string) : M py_value :=
  if negb (enabled self) then ret PyNone
  else
    try_except_Exception (query_attempt P self command) query_failed ;;
    ret PyNone.

(** [LLMCacheClient.query_command], as decorated: the trace of the call and
    the final state of the Deferred it returns. *)
Definition query_command (P : Platform) (self : LLMCacheClient) (command : string)
  : trace * deferred :=
  inlineCallbacks (query_command_gen P self command).

(** ** The process-wide singleton *)

(** The interpreter state the two modules share: the environment and the
    module global [_llm_cache_client]. *)
Record World : Type := mkWorld {
  os_environ : gmap string string;
  _llm_cache_client : option LLMCacheClient
}.

(** [get_llm_cache_client] (llm_cache.py, lines 129-136) when the
    constructor does not raise: the client, the world with the global
    filled in, and the log of a first construction.
    [get_llm_cache_client_or_raise] below adds the raising constructor. *)
Definition get_llm_cache_client (w : World) : LLMCacheClient * World * trace :=
  match _llm_cache_client w with
  | None =>
      let (c, t) := LLMCacheClient_init (os_environ w) in
      (c, mkWorld (os_environ w) (Some c), t)
  | Some c => (c, w, [])
  end.

(** ** Strings *)

(** The line feed, ["\n"]. *)
Definition nl : string := String (ascii_of_nat 10) "".

(** [sep.join(parts)] *)
Fixpoint join (sep : string) (parts : list string) : string :=
  match parts with
  | [] => ""
  | p :: rest =>
      match rest with
      | [] => p
      | _ :: _ => p +:+ sep +:+ join sep rest
      end
  end.

(** [s.endswith(suffix)] *)
Definition endswith (s suffix : string) : bool :=
  let n := String.length s in
  let k := String.length suffix in
  Nat.leb k n && String.eqb (String.substring (n - k) k s) suffix.

(** ** Command_llm *)

(** Modelled from the spec: [HoneyPotCommand.write] (cowrie/shell/command.py
    is not under src/) writes its text verbatim to the terminal.  The spec
    gives it text only; on any other value the model raises at once the
    [AttributeError] that the next line of [start], [response.endswith],
    raises for such a value in any case. *)
Definition write (data : py_value) : M unit :=
  match data with
  | PyStr s => emit (TermWrite s)
  | _ => raise (mkException "AttributeError"
                  ("'" +:+ type_name data +:+ "' object has no attribute 'encode'"))
  end.

(** Modelled from the spec: [HoneyPotCommand.exit] (same missing module)
    marks the command complete. *)
Definition exit : M unit := emit CmdExit.

(** [v.endswith(suffix)]: only [str] has the method among the values here. *)
Definition py_endswith (v : py_value) (suffix : string) : M bool :=
  match v with
  | PyStr s => ret (endswith s suffix)
  | _ => raise (mkException "AttributeError"
                  ("'" +:+ type_name v +:+ "' object has no attribute 'endswith'"))
  end.

(** Lines 39-40 of llm.py: the command line rebuilt from name and args. *)
Definition full_command (name : string) (args : list string) : string :=
  let cmd_parts := name :: args in
  join " " cmd_parts.

(** Lines 50-59 of llm.py: what [start] does with the query's result. *)
Definition respond (name : string) (response : py_value) : M unit :=
  (if truthy response then
     write response ;;
     ends <- py_endswith response nl ;;
     if negb ends then write (PyStr nl) else ret tt
   else
     write (PyStr ("bash: " +:+ name +:+ ": command not found" +:+ nl))) ;;
  exit.

(** Lines 42-59 of llm.py: the body of [start] once the command line is
    built. *)
Definition start_gen (P : Platform) (w : World) (name command : string)
  : World * M py_value :=
  let '(llm_client, w', t_init) := get_llm_cache_client w in
  (w',
   log_msg ("LLM command handler invoked for: " +:+ command) ;;
   emit_all t_init ;;
   response <- yield_ (query_command P llm_client command) ;;
   respond name response ;;
   ret PyNone).

(** [Command_llm.start], as decorated (llm.py, lines 32-59), for a command
    instance with [self.name = name] and [self.args = args]. *)
Definition start (P : Platform) (w : World) (name : string) (args : list string)
  : World * (trace * deferred) :=
  let (w', g) := start_gen P w name (full_command name args) in
  (w', inlineCallbacks g).

(** [Command_llm.lineReceived] (lines 61-66) *)
Definition lineReceived (line : string) : M unit :=
  log_msg ("LLM command received input: " +:+ line).

(** ** Reading a trace *)

(** The strings handed to the terminal, call by call. *)
Fixpoint terminal_writes (t : trace) : list string :=
  match t with
  | [] => []
  | TermWrite s :: t' => s :: terminal_writes t'
  | _ :: t' => terminal_writes t'
  end.

(** What the terminal shows. *)
Definition terminal_output (t : trace) : string :=
  String.concat "" (terminal_writes t).

(** Whether the command was marked complete. *)
Definition command_exited (t : trace) : bool :=
  existsb (fun ev => match ev with CmdExit => true | _ => false end) t.

(** The requests that went out on the network. *)
Fixpoint network_activity (t : trace) : trace :=
  match t with
  | [] => []
  | HttpRequest m u h b :: t' => HttpRequest m u h b :: network_activity t'
  | ReadBody :: t' => ReadBody :: network_activity t'
  | _ :: t' => network_activity t'
  end.

(** ** A reference platform

    Concrete stand-ins for the library calls, so that the model runs on
    actual request and reply texts.  They follow CPython's [json] and
    [bytes.decode] on this fragment: JSON without floating-point numbers and
    without escaped surrogates; error messages are abridged.  Every
    theorem below is stated for an arbitrary [Platform]; this one is only
    used to run examples. *)
Module Reference.

Definition dquote : ascii := ascii_of_nat 34.
Definition backslash : ascii := ascii_of_nat 92.
Definition code (c : ascii) : nat := nat_of_ascii c.
Definition chr (n : nat) : ascii := ascii_of_nat n.
Definition byte_in (lo hi : nat) (c : ascii) : bool :=
  Nat.leb lo (code c) && Nat.leb (code c) hi.
Definition code_is (c : ascii) (n : nat) : bool := Nat.eqb (code c) n.

(** *** [bytes.decode("utf-8")] *)

Definition cont (c : ascii) : bool := byte_in 128 191 c.

Definition second_of_3 (c0 c1 : ascii) : bool :=
  if code_is c0 224 then byte_in 160 191 c1
  else if code_is c0 237 then byte_in 128 159 c1
  else cont c1.

Definition second_of_4 (c0 c1 : ascii) : bool :=
  if code_is c0 240 then byte_in 144 191 c1
  else if code_is c0 244 then byte_in 128 143 c1
  else cont c1.

Fixpoint utf8_valid (s : string) : bool :=
  match s with
  | EmptyString => true
  | String c0 s1 =>
      if byte_in 0 127 c0 then utf8_valid s1
      else
        match s1 with
        | EmptyString => false
        | String c1 s2 =>
            if byte_in 194 223 c0 then cont c1 && utf8_valid s2
            else
              match s2 with
              | EmptyString => false
              | String c2 s3 =>
                  if byte_in 224 239 c0
                  then second_of_3 c0 c1 && cont c2 && utf8_valid s3
                  else
                    match s3 with
                    | EmptyString => false
                    | String c3 s4 =>
                        byte_in 240 244 c0 && second_of_4 c0 c1
                        && cont c2 && cont c3 && utf8_valid s4
                    end
              end
        end
  end.

Definition bytes_decode (b : string) : PyException + string :=
  if utf8_valid b then inr b
  else inl (mkException "UnicodeDecodeError" "'utf-8' codec can't decode bytes").

(** *** [json.loads] *)

Definition is_ws (c : ascii) : bool := code_is c 32 || code_is c 9 || code_is c 10 || code_is c 13.

Fixpoint skip_ws (s : string) : string :=
  match s with
  | String c s' => if is_ws c then skip_ws s' else s
  | EmptyString => s
  end.

Fixpoint strip_prefix (p s : string) : option string :=
  match p with
  | EmptyString => Some s
  | String a p' =>
      match s with
      | String b s' => if Ascii.eqb a b then strip_prefix p' s' else None
      | EmptyString => None
      end
  end.

Definition hex_digit (c : ascii) : option N :=
  if byte_in 48 57 c then Some (N.of_nat (code c - 48))
  else if byte_in 97 102 c then Some (N.of_nat (code c - 87))
  else if byte_in 65 70 c then Some (N.of_nat (code c - 55))
  else None.

Definition hex4 (a b c d : ascii) : option N :=
  match hex_digit a, hex_digit b, hex_digit c, hex_digit d with
  | Some x, Some y, Some z, Some w => Some (((x * 16 + y) * 16 + z) * 16 + w)%N
  | _, _, _, _ => None
  end.

(** The UTF-8 bytes of a code point of the basic plane, surrogates
    excluded. *)
Definition utf8_encode (cp : N) : option string :=
  let byte (n : N) := ascii_of_N n in
  if (cp <? 128)%N then Some (String (byte cp) "")
  else if (cp <? 2048)%N then
    Some (String (byte (192 + cp / 64)%N) (String (byte (128 + cp mod 64)%N) ""))
  else if ((55296 <=? cp) && (cp <=? 57343))%N then None
  else if (cp <? 65536)%N then
    Some (String (byte (224 + cp / 4096)%N)
           (String (byte (128 + (cp / 64) mod 64)%N)
             (String (byte (128 + cp mod 64)%N) "")))
  else None.

Definition unescape (e : ascii) : option ascii :=
  if Ascii.eqb e dquote then Some dquote
  else if Ascii.eqb e backslash then Some backslash
  else if code_is e 47 then Some e
  else if code_is e 98 then Some (chr 8)
  else if code_is e 102 then Some (chr 12)
  else if code_is e 110 then Some (chr 10)
  else if code_is e 114 then Some (chr 13)
  else if code_is e 116 then Some (chr 9)
  else None.

(** The text of a string literal, read after its opening quote, and what
    follows the closing quote. *)
Fixpoint scan_string (s : string) : option (string * string) :=
  match s with
  | EmptyString => None
  | String c s1 =>
      if Ascii.eqb c dquote then Some ("", s1)
      else if Ascii.eqb c backslash then
        match s1 with
        | EmptyString => None
        | String e s2 =>
            if code_is e 117 then
              match s2 with
              | String h1 (String h2 (String h3 (String h4 s6))) =>
                  match hex4 h1 h2 h3 h4 with
                  | Some cp =>
                      match utf8_encode cp, scan_string s6 with
                      | Some u, Some (r, rest) => Some (u +:+ r, rest)
                      | _, _ => None
                      end
                  | None => None
                  end
              | _ => None
              end
            else
              match unescape e, scan_string s2 with
              | Some ch, Some (r, rest) => Some (String ch r, rest)
              | _, _ => None
              end
        end
      else if Nat.ltb (code c) 32 then None
      else
        match scan_string s1 with
        | Some (r, rest) => Some (String c r, rest)
        | None => None
        end
  end.

Definition is_digit (c : ascii) : bool := byte_in 48 57 c.

Fixpoint scan_digits (s : string) (acc : Z) : Z * string :=
  match s with
  | String c s' =>
      if is_digit c then scan_digits s' (acc * 10 + Z.of_nat (code c - 48))%Z
      else (acc, s)
  | EmptyString => (acc, s)
  end.

(** An integer literal; a fraction or an exponent after it is outside the
    fragment. *)
Definition scan_int (s : string) : option (Z * string) :=
  let '(negative, s1) :=
    match s with
    | String c s' => if code_is c 45 then (true, s') else (false, s)
    | EmptyString => (false, s)
    end in
  match s1 with
  | String d s2 =>
      if is_digit d then
        let '(n, rest) :=
          if code_is d 48 then (0%Z, s2) else scan_digits s2 (Z.of_nat (code d - 48)) in
        match rest with
        | String c _ =>
            if code_is c 46 || code_is c 101 || code_is c 69 then None
            else Some (if negative then (- n)%Z else n, rest)
        | EmptyString => Some (if negative then (- n)%Z else n, rest)
        end
      else None
  | EmptyString => None
  end.

Definition scan_literal (s : string) : option (py_value * string) :=
  match strip_prefix "null" s, strip_prefix "true" s, strip_prefix "false" s with
  | Some rest, _, _ => Some (PyNone, rest)
  | _, Some rest, _ => Some (PyBool true, rest)
  | _, _, Some rest => Some (PyBool false, rest)
  | _, _, _ =>
      match scan_int s with
      | Some (z, rest) => Some (PyInt z, rest)
      | None => None
      end
  end.

(** One JSON value at the head of [s] (no leading white space), the items
    of an array after its bracket, the members of an object after its
    brace. *)
Fixpoint scan_once (fuel : nat) (s : string) : option (py_value * string) :=
  match fuel with
  | O => None
  | S fuel' =>
      match s with
      | EmptyString => None
      | String c s1 =>
          if Ascii.eqb c dquote then
            match scan_string s1 with
            | Some (str, rest) => Some (PyStr str, rest)
            | None => None
            end
          else if code_is c 123 then
            match skip_ws s1 with
            | String c' s2 =>
                if code_is c' 125 then Some (PyDict [], s2)
                else scan_pairs fuel' (String c' s2) []
            | EmptyString => None
            end
          else if code_is c 91 then
            match skip_ws s1 with
            | String c' s2 =>
                if code_is c' 93 then Some (PyList [], s2)
                else scan_items fuel' (String c' s2) []
            | EmptyString => None
            end
          else scan_literal s
      end
  end
with scan_items (fuel : nat) (s : string) (acc : list py_value)
  : option (py_value * string) :=
  match fuel with
  | O => None
  | S fuel' =>
      match scan_once fuel' s with
      | Some (v, s1) =>
          match skip_ws s1 with
          | String c s2 =>
              if code_is c 44 then scan_items fuel' (skip_ws s2) (acc ++ [v])
              else if code_is c 93 then Some (PyList (acc ++ [v]), s2)
              else None
          | EmptyString => None
          end
      | None => None
      end
  end
with scan_pairs (fuel : nat) (s : string) (acc : list (string * py_value))
  : option (py_value * string) :=
  match fuel with
  | O => None
  | S fuel' =>
      match s with
      | String c s1 =>
          if Ascii.eqb c dquote then
            match scan_string s1 with
            | Some (k, s2) =>
                match skip_ws s2 with
                | String c2 s3 =>
                    if code_is c2 58 then
                      match scan_once fuel' (skip_ws s3) with
                      | Some (v, s4) =>
                          match skip_ws s4 with
                          | String c4 s5 =>
                              if code_is c4 44
                              then scan_pairs fuel' (skip_ws s5) (dict_set acc k v)
                              else if code_is c4 125
                              then Some (PyDict (dict_set acc k v), s5)
                              else None
                          | EmptyString => None
                          end
                      | None => None
                      end
                    else None
                | EmptyString => None
                end
            | None => None
            end
          else None
      | EmptyString => None
      end
  end.

Definition json_loads (s : string) : PyException + py_value :=
  match scan_once (2 * String.length s + 2) (skip_ws s) with
  | Some (v, rest) =>
      match skip_ws rest with
      | EmptyString => inr v
      | String _ _ => inl (mkException "JSONDecodeError" "Extra data")
      end
  | None => inl (mkException "JSONDecodeError" "Expecting value")
  end.

(** *** [json.dumps] *)

Definition hex_char (n : N) : ascii :=
  if (n <? 10)%N then ascii_of_N (48 + n) else ascii_of_N (87 + n).

(** [\uXXXX] for a 16-bit unit *)
Definition u_escape (u : N) : string :=
  String backslash
    (String (chr 117)
      (String (hex_char (u / 4096))
        (String (hex_char ((u / 256) mod 16))
          (String (hex_char ((u / 16) mod 16))
            (String (hex_char (u mod 16)) ""))))).

(** A code point outside ASCII: one unit, or a surrogate pair. *)
Definition escape_cp (cp : N) : string :=
  if (cp <? 65536)%N then u_escape cp
  else
    let v := (cp - 65536)%N in
    u_escape (55296 + v / 1024) +:+ u_escape (56320 + v mod 1024).

Definition escape_ascii (c : ascii) : string :=
  if Ascii.eqb c dquote then String backslash (String dquote "")
  else if Ascii.eqb c backslash then String backslash (String backslash "")
  else if code_is c 10 then String backslash "n"
  else if code_is c 13 then String backslash "r"
  else if code_is c 9 then String backslash "t"
  else if code_is c 8 then String backslash "b"
  else if code_is c 12 then String backslash "f"
  else if byte_in 32 126 c then String c ""
  else u_escape (N_of_ascii c).

Definition low6 (c : ascii) : N := (N_of_ascii c - 128)%N.

(** The body of a string literal for UTF-8 text, all output in ASCII. *)
Fixpoint escape_text (s : string) : string :=
  match s with
  | EmptyString => ""
  | String c0 s1 =>
      if byte_in 0 127 c0 then escape_ascii c0 +:+ escape_text s1
      else
        match s1 with
        | EmptyString => ""
        | String c1 s2 =>
            if byte_in 192 223 c0
            then escape_cp ((N_of_ascii c0 - 192) * 64 + low6 c1) +:+ escape_text s2
            else
              match s2 with
              | EmptyString => ""
              | String c2 s3 =>
                  if byte_in 224 239 c0
                  then escape_cp (((N_of_ascii c0 - 224) * 64 + low6 c1) * 64 + low6 c2)
                       +:+ escape_text s3
                  else
                    match s3 with
                    | EmptyString => ""
                    | String c3 s4 =>
                        escape_cp ((((N_of_ascii c0 - 240) * 64 + low6 c1) * 64
                                    + low6 c2) * 64 + low6 c3)
                        +:+ escape_text s4
                    end
              end
        end
  end.

Definition quoted (s : string) : string :=
  String dquote (escape_text s +:+ String dquote "").

(** [json.dumps(v)] with the default separators. *)
Fixpoint dumps (v : py_value) : string :=
  match v with
  | PyNone => "null"
  | PyBool true => "true"
  | PyBool false => "false"
  | PyInt z => pretty z
  | PyStr s => quoted s
  | PyList l => "[" +:+ join ", " (map dumps l) +:+ "]"
  | PyDict d =>
      "{" +:+ join ", " (map (fun '(k, x) => quoted k +:+ ": " +:+ dumps x) d) +:+ "}"
  end.

(** Strings are text (valid UTF-8) here, for which [json.dumps] does not
    raise. *)
Definition json_dumps (v : py_value) : PyException + string := inr (dumps v).

(** *** The transport *)

(** A service that answers every request with the same body. *)
Definition replying (body : string) : Platform :=
  mkPlatform string json_dumps (fun _ _ _ _ => inr body) (fun r => inr r)
    bytes_decode json_loads.

(** A service that cannot be reached: the request fails with [e]. *)
Definition unreachable (e : PyException) : Platform :=
  mkPlatform string json_dumps (fun _ _ _ _ => inl e) (fun r => inr r)
    bytes_decode json_loads.

Definition ConnectionRefusedError : PyException :=
  mkException "ConnectionRefusedError" "Connection was refused by other side: 111: Connection refused.".

(** The characters that string literals cannot spell directly. *)
Definition q : string := String dquote "".
Definition bs : string := String backslash "".

End Reference.

(** ** The constructor on an arbitrary environment *)

(** The three values that line 58 formats into the target address. *)
Definition setting_values (environ : gmap string string) : list string :=
  [ environ_get_default environ "LLM_CACHE_URL" "http://localhost";
    environ_get_default environ "LLM_CACHE_PORT" "8080";
    environ_get_default environ "LLM_CACHE_ENDPOINT" "/query" ].

(** [os.environ] decodes the bytes of the environment as UTF-8 with
    [surrogateescape]: a value whose bytes are valid UTF-8 is text, any
    other value holds lone surrogates, and a [str] holding one cannot be
    encoded again.  Line 58 can be passed exactly when the three values it
    formats are text. *)
Definition settings_are_text (environ : gmap string string) : bool :=
  forallb Reference.utf8_valid (setting_values environ).

Definition UnicodeEncodeError : PyException :=
  mkException "UnicodeEncodeError"
    "'utf-8' codec can't encode character: surrogates not allowed".

(** [LLMCacheClient()]: [__init__] (lines 52-70) with the encoding of line
    58.  When that raises, nothing has been logged and [enabled] has not
    been computed. *)
Definition LLMCacheClient_construct (environ : gmap string string)
  : PyException + (LLMCacheClient * trace) :=
  if settings_are_text environ then inr (LLMCacheClient_init environ)
  else inl UnicodeEncodeError.

(** [get_llm_cache_client] (lines 129-136) with that constructor: when it
    raises at line 135, the global keeps its [None]. *)
Definition get_llm_cache_client_or_raise (w : World)
  : World * (PyException + (LLMCacheClient * trace)) :=
  match _llm_cache_client w with
  | Some c => (w, inr (c, []))
  | None =>
      match LLMCacheClient_construct (os_environ w) with
      | inr (c, t) => (mkWorld (os_environ w) (Some c), inr (c, t))
      | inl e => (w, inl e)
      end
  end.

(** The worlds in which [get_llm_cache_client] hands out a client: one is
    in place already, or the settings are text. *)
Definition client_obtainable (w : World) : Prop :=
  is_Some (_llm_cache_client w) \/ settings_are_text (os_environ w) = true.

(** * Vocabulary of the properties *)

(** ** Configuration *)

(** The three settings, as a raw environment supplies them. *)
Definition setting_names : list string :=
  ["LLM_CACHE_URL"; "LLM_CACHE_PORT"; "LLM_CACHE_ENDPOINT"].

(** A setting is supplied when the environment has an entry for it. *)
Definition supplied (environ : gmap string string) (name : string) : Prop :=
  is_Some (environ !! name).

(** A setting is usable when its entry is a non-empty string. *)
Definition nonempty_setting (environ : gmap string string) (name : string) : Prop :=
  exists v, environ !! name = Some v /\ v <> "".

(** ** The exchange with the service *)

(** The service answered [command] and the answer decoded and parsed to
    [v]: every step of the exchange succeeded. *)
Definition reply_parsed (P : Platform) (self : LLMCacheClient) (command : string)
    (v : py_value) : Prop :=
  exists json_data response body text,
    json_dumps P (request_payload command) = inr json_data
    /\ agent_request P "POST" (full_url self) (request_headers json_data) json_data
       = inr response
    /\ readBody P response = inr body
    /\ bytes_decode P body = inr text
    /\ json_loads P text = inr v.

(** ** Observations of the handler *)

(** The client the handler gets from the singleton, and what obtaining it
    logs. *)
Definition client_of (w : World) : LLMCacheClient := fst (fst (get_llm_cache_client w)).
Definition init_log (w : World) : trace := snd (get_llm_cache_client w).

(** The three observations of one run of [start]. *)
Definition handler_trace (P : Platform) (w : World) (name : string)
    (args : list string) : trace :=
  fst (snd (start P w name args)).
Definition handler_result (P : Platform) (w : World) (name : string)
    (args : list string) : deferred :=
  snd (snd (start P w name args)).
Definition query_outcome (P : Platform) (w : World) (name : string)
    (args : list string) : deferred :=
  snd (query_command P (client_of w) (full_command name args)).

(** The not-found line for a command name. *)
Definition not_found_line (name : string) : string :=
  "bash: " +:+ name +:+ ": command not found" +:+ nl.

(** [s] ends with a line feed. *)
Definition newline_terminated (s : string) : Prop := exists s', s = s' +:+ nl.

(** The tokens of a command line, each argument behind one space. *)
Definition spaced (args : list string) : string :=
  foldr (fun a rest => " " +:+ a +:+ rest) "" args.

(** ** Environments, clients and reply bodies used in the concrete runs *)

Definition env_all_set : gmap string string :=
  <["LLM_CACHE_URL" := "http://10.0.0.5"]>
    (<["LLM_CACHE_PORT" := "9000"]> (<["LLM_CACHE_ENDPOINT" := "/ask"]> ∅)).

(** An environment in which all three settings are supplied, the address
    as the empty string. *)
Definition env_url_empty : gmap string string :=
  <["LLM_CACHE_URL" := ""]>
    (<["LLM_CACHE_PORT" := "9000"]> (<["LLM_CACHE_ENDPOINT" := "/ask"]> ∅)).

(** An environment whose address is the single byte 0xFF, which is not
    UTF-8; port and endpoint are not set. *)
Definition env_url_not_text : gmap string string :=
  <["LLM_CACHE_URL" := String (ascii_of_nat 255) ""]> ∅.

Definition world_not_text : World := mkWorld env_url_not_text None.

Definition enabled_client : LLMCacheClient := new_client env_all_set.
Definition world_enabled : World := mkWorld env_all_set None.
Definition world_disabled : World := mkWorld ∅ None.

(** The reply body [{"key": value}], [value] given as JSON text. *)
Definition object_body (key value : string) : string :=
  "{" +:+ Reference.q +:+ key +:+ Reference.q +:+ ": " +:+ value +:+ "}".

Definition body_permission_denied : string :=
  object_body "response" (Reference.q +:+ "foobar: permission denied" +:+ Reference.q).
Definition body_status_only : string := object_body "status" (Reference.q +:+ "ok" +:+ Reference.q).
Definition body_response_42 : string := object_body "response" "42".
Definition body_empty_array : string := "[]".

(** ** Further observations *)

(** The world a call of [get_llm_cache_client] leaves behind. *)
Definition world_after_get (w : World) : World := snd (fst (get_llm_cache_client w)).

(** A later state of the process: the same module global, the environment
    replaced by [environ]. *)
Definition with_environ (environ : gmap string string) (w : World) : World :=
  mkWorld environ (_llm_cache_client w).

(** The log record with which [query_command] reports an exception. *)
Definition error_record (e : PyException) : event :=
  LogErr ("Error querying LLM cache: " +:+ exc_str e).

(** The two events that open every exchange: the log record and the
    request carrying [json_data]. *)
Definition request_events (self : LLMCacheClient) (command json_data : string)
  : trace :=
  [ LogMsg ("Querying LLM cache for command: " +:+ command);
    HttpRequest "POST" (full_url self) (request_headers json_data) json_data ].

(** The service answered with [response], but no mapping could be had from
    it: reading the body, decoding it or parsing it raised [e], or it
    parsed to a value without [get]. *)
Inductive reply_unusable (P : Platform) (response : Response P)
  : PyException -> Prop :=
  | body_unreadable e :
      readBody P response = inl e ->
      reply_unusable P response e
  | body_undecodable body e :
      readBody P response = inr body ->
      bytes_decode P body = inl e ->
      reply_unusable P response e
  | body_unparseable body text e :
      readBody P response = inr body ->
      bytes_decode P body = inr text ->
      json_loads P text = inl e ->
      reply_unusable P response e
  | body_not_a_mapping body text v :
      readBody P response = inr body ->
      bytes_decode P body = inr text ->
      json_loads P text = inr v ->
      (forall d, v <> PyDict d) ->
      reply_unusable P response
        (mkException "AttributeError"
           ("'" +:+ type_name v +:+ "' object has no attribute 'get'")).

(** The number of requests in a trace. *)
Fixpoint request_count (t : trace) : nat :=
  match t with
  | [] => 0
  | HttpRequest _ _ _ _ :: t' => S (request_count t')
  | _ :: t' => request_count t'
  end.

(** The error records in a trace. *)
Fixpoint error_records (t : trace) : list string :=
  match t with
  | [] => []
  | LogErr s :: t' => s :: error_records t'
  | _ :: t' => error_records t'
  end.

(** The value of the header [name] in a header list. *)
Fixpoint header (name : string) (headers : list (string * list string))
  : option (list string) :=
  match headers with
  | [] => None
  | (k, v) :: rest => if String.eqb k name then Some v else header name rest
  end.

(** More reply bodies. *)
Definition body_response_zero : string := object_body "response" "0".
Definition body_not_json : string := "<html>Bad Gateway</html>".

(** The calls a transport may make on a body producer. *)
Inductive producer_call : Type :=
  | CallStartProducing
  | CallPauseProducing
  | CallStopProducing.

(** The consumer after a sequence of calls on the producer [self]. *)
Fixpoint producer_calls (self : JSONProducer.t) (calls : list producer_call)
    (consumer : list string) : list string :=
  match calls with
  | [] => consumer
  | CallStartProducing :: rest =>
      producer_calls self rest (fst (JSONProducer.startProducing self consumer))
  | CallPauseProducing :: rest =>
      producer_calls self rest (JSONProducer.pauseProducing self consumer)
  | CallStopProducing :: rest =>
      producer_calls self rest (JSONProducer.stopProducing self consumer)
  end.

(** How many of the calls are [startProducing]. *)
Fixpoint starts (calls : list producer_call) : nat :=
  match calls with
  | [] => 0
  | CallStartProducing :: rest => S (starts rest)
  | _ :: rest => starts rest
  end.

(** The number of bytes a consumer has been handed. *)
Fixpoint bytes_written (consumer : list string) : nat :=
  match consumer with
  | [] => 0
  | chunk :: rest => String.length chunk + bytes_written rest
  end.

(** An event of the handler's own: a terminal write or the exit. *)
Definition local_event (ev : event) : Prop :=
  match ev with TermWrite _ | CmdExit => True | _ => False end.

(** * Properties *)

(** ** Configuration *)

Example init_nothing_set :
  LLMCacheClient_init ∅ =
  (mkLLMCacheClient "http://localhost" "8080" "/query"
     "http://localhost:8080/query" false,
   [LogMsg "LLM Cache client disabled (environment variables not set)"]).
Proof. reflexivity. Qed.

Example init_all_set :
  LLMCacheClient_init env_all_set =
  (mkLLMCacheClient "http://10.0.0.5" "9000" "/ask" "http://10.0.0.5:9000/ask" true,
   [LogMsg "LLM Cache client initialized: http://10.0.0.5:9000/ask"]).
Proof. vm_compute. reflexivity. Qed.

Lemma truthy_environ_get environ name :
  truthy (environ_get environ name) = true <-> nonempty_setting environ name.
Proof.
  unfold environ_get, nonempty_setting.
  destruct (environ !! name) as [v|]; simpl.
  - rewrite negb_true_iff. split.
    + intros H. exists v. split; [reflexivity|].
      intros ->. discriminate.
    + intros (v' & [= <-] & Hne). apply String.eqb_neq. exact Hne.
  - split; [discriminate|]. intros (v & Hv & _). discriminate.
Qed.

Lemma enabled_new_client environ :
  enabled (new_client environ) =
  truthy (environ_get environ "LLM_CACHE_URL")
  && (truthy (environ_get environ "LLM_CACHE_PORT")
      && (truthy (environ_get environ "LLM_CACHE_ENDPOINT") && true)).
Proof. reflexivity. Qed.

(** C7, as stated, fails: here all three settings are supplied, one of
    them as the empty string, and the client is built but not enabled; and
    where only an address is set that is not text, a setting is missing
    and construction raises. *)
Lemma enabled_iff_supplied_fails :
  Forall (supplied env_url_empty) setting_names
  /\ enabled (new_client env_url_empty) = false
  /\ ~ (enabled (new_client env_url_empty) = true <->
        Forall (supplied env_url_empty) setting_names)
  /\ LLMCacheClient_construct env_url_empty
     = inr (LLMCacheClient_init env_url_empty)
  /\ env_url_not_text !! "LLM_CACHE_PORT" = None
  /\ LLMCacheClient_construct env_url_not_text = inl UnicodeEncodeError.
Proof.
  assert (Hall : Forall (supplied env_url_empty) setting_names).
  { unfold setting_names, supplied, env_url_empty.
    repeat constructor; vm_compute; eauto. }
  assert (Hdis : enabled (new_client env_url_empty) = false)
    by (vm_compute; reflexivity).
  split; [exact Hall|]. split; [exact Hdis|]. split.
  { intros [_ H]. specialize (H Hall). rewrite Hdis in H. discriminate H. }
  repeat split; vm_compute; reflexivity.
Qed.

(** The constructor raises exactly when one of the three values it formats
    is not text. *)
Lemma construction_raises_iff_not_text environ :
  (exists e, LLMCacheClient_construct environ = inl e)
  <-> settings_are_text environ = false.
Proof.
  unfold LLMCacheClient_construct.
  destruct (settings_are_text environ); split; try reflexivity; try eauto.
  - intros (e & H). discriminate H.
  - discriminate.
Qed.

Lemma construction_succeeds environ :
  settings_are_text environ = true ->
  LLMCacheClient_construct environ
  = inr (new_client environ, snd (LLMCacheClient_init environ)).
Proof.
  intros Htext. unfold LLMCacheClient_construct, new_client. rewrite Htext.
  destruct (LLMCacheClient_init environ). reflexivity.
Qed.

Lemma constructed_client environ c t :
  LLMCacheClient_construct environ = inr (c, t) ->
  settings_are_text environ = true
  /\ c = new_client environ /\ t = snd (LLMCacheClient_init environ).
Proof.
  unfold LLMCacheClient_construct, new_client.
  destruct (settings_are_text environ); [|discriminate].
  intros H.
  assert (E : LLMCacheClient_init environ = (c, t)) by congruence.
  rewrite E. auto.
Qed.

(** C7, amended: when the values of the settings are valid UTF-8 text, the
    client is built, and it is enabled exactly when each of the three
    settings is present in the environment with a non-empty value;
    otherwise it is built disabled and logs so, with no error raised. *)
Theorem enabled_iff_all_nonempty (environ : gmap string string) :
  settings_are_text environ = true ->
  exists c t,
    LLMCacheClient_construct environ = inr (c, t)
    /\ (enabled c = true <-> Forall (nonempty_setting environ) setting_names)
    /\ (~ Forall (nonempty_setting environ) setting_names ->
        t = [LogMsg "LLM Cache client disabled (environment variables not set)"]
        /\ enabled c = false).
Proof.
  intros Htext.
  exists (new_client environ), (snd (LLMCacheClient_init environ)).
  split; [apply construction_succeeds; exact Htext|].
  assert (Hiff : enabled (new_client environ) = true <->
                 Forall (nonempty_setting environ) setting_names).
  { rewrite enabled_new_client, !andb_true_iff, !truthy_environ_get.
    unfold setting_names. split.
    - intros (H1 & H2 & H3 & _). repeat constructor; assumption.
    - intros H. inversion H as [|? ? H1 H']; subst.
      inversion H' as [|? ? H2 H'']; subst.
      inversion H'' as [|? ? H3 _]; subst. auto. }
  split; [exact Hiff|].
  intros Hn.
  assert (Hd : enabled (new_client environ) = false).
  { destruct (enabled (new_client environ)) eqn:E; [|reflexivity].
    exfalso. apply Hn, Hiff. reflexivity. }
  split; [|exact Hd].
  unfold new_client in Hd. unfold LLMCacheClient_init in *. simpl in *.
  rewrite Hd. reflexivity.
Qed.

(** C9: the target address of every client that is built is the address
    value, a colon, the port value and the endpoint path, in that order,
    each taken from the environment or, when unset, from its default; with
    none of the three set the client is built and its target is
    http://localhost:8080/query. *)
Theorem full_url_composition (environ : gmap string string) :
  (forall c t,
     LLMCacheClient_construct environ = inr (c, t) ->
     full_url c =
       default "http://localhost" (environ !! "LLM_CACHE_URL") +:+ ":"
       +:+ default "8080" (environ !! "LLM_CACHE_PORT")
       +:+ default "/query" (environ !! "LLM_CACHE_ENDPOINT")
     /\ full_url c = url c +:+ ":" +:+ port c +:+ endpoint c)
  /\ (Forall (fun name => environ !! name = None) setting_names ->
      exists c t,
        LLMCacheClient_construct environ = inr (c, t)
        /\ full_url c = "http://localhost:8080/query").
Proof.
  split.
  - intros c t H. apply constructed_client in H as (_ & -> & _).
    split; reflexivity.
  - intros H. unfold setting_names in H.
    inversion H as [|? ? H1 H']; subst.
    inversion H' as [|? ? H2 H'']; subst.
    inversion H'' as [|? ? H3 _]; subst.
    assert (Htext : settings_are_text environ = true).
    { unfold settings_are_text, setting_values, environ_get_default.
      rewrite H1, H2, H3. vm_compute. reflexivity. }
    exists (new_client environ), (snd (LLMCacheClient_init environ)).
    split; [apply construction_succeeds; exact Htext|].
    unfold new_client, LLMCacheClient_init, environ_get_default. simpl.
    rewrite H1, H2, H3. reflexivity.
Qed.

(** A setting that is present but empty is falsy in [all], as an absent
    one is. *)
Lemma empty_setting_falsy (environ : gmap string string) (name : string) :
  name ∈ setting_names ->
  environ !! name = Some "" ->
  enabled (new_client environ) = false
  /\ enabled (new_client environ) = enabled (new_client (delete name environ)).
Proof.
  intros Hin Hempty.
  assert (Ht : truthy (environ_get environ name) = false).
  { unfold environ_get. rewrite Hempty. reflexivity. }
  assert (Hd : truthy (environ_get (delete name environ) name) = false).
  { unfold environ_get. rewrite lookup_delete_eq. reflexivity. }
  assert (Ho : forall other, other <> name ->
             environ_get (delete name environ) other = environ_get environ other).
  { intros other Hne. unfold environ_get. rewrite lookup_delete_ne; [reflexivity|].
    intros Heq. apply Hne. symmetry. exact Heq. }
  rewrite !enabled_new_client.
  unfold setting_names in Hin.
  apply elem_of_cons in Hin as [->|Hin];
    [|apply elem_of_cons in Hin as [->|Hin];
      [|apply elem_of_cons in Hin as [->|Hin]; [|inversion Hin]]].
  - rewrite Ht, Hd. split; reflexivity.
  - rewrite Ht, Hd, !andb_false_r. split; reflexivity.
  - rewrite Ht, Hd, !andb_false_r. split; reflexivity.
Qed.

Lemma utf8_valid_empty : Reference.utf8_valid "" = true.
Proof. reflexivity. Qed.

Lemma settings_are_text_unfold environ :
  settings_are_text environ =
  Reference.utf8_valid (default "http://localhost" (environ !! "LLM_CACHE_URL"))
  && (Reference.utf8_valid (default "8080" (environ !! "LLM_CACHE_PORT"))
      && (Reference.utf8_valid (default "/query" (environ !! "LLM_CACHE_ENDPOINT"))
          && true)).
Proof. reflexivity. Qed.

(** C10: a setting that is present but empty disables the client, just as
    if it were absent: construction raises with it exactly when it raises
    without it, and otherwise both clients are built with the flag false. *)
Theorem empty_setting_disables (environ : gmap string string) (name : string) :
  name ∈ setting_names ->
  environ !! name = Some "" ->
  settings_are_text (delete name environ) = settings_are_text environ
  /\ forall c t,
       LLMCacheClient_construct environ = inr (c, t) ->
       enabled c = false
       /\ exists c' t',
            LLMCacheClient_construct (delete name environ) = inr (c', t')
            /\ enabled c' = enabled c.
Proof.
  intros Hin Hempty.
  assert (Htext : settings_are_text (delete name environ)
                  = settings_are_text environ).
  { assert (Ho : forall other, other <> name ->
               delete name environ !! other = environ !! other).
    { intros other Hne. apply lookup_delete_ne.
      intros Heq. apply Hne. symmetry. exact Heq. }
    rewrite !settings_are_text_unfold.
    unfold setting_names in Hin.
    apply elem_of_cons in Hin as [->|Hin];
      [|apply elem_of_cons in Hin as [->|Hin];
        [|apply elem_of_cons in Hin as [->|Hin]; [|inversion Hin]]];
      rewrite lookup_delete_eq, Hempty, !Ho by discriminate; reflexivity. }
  split; [exact Htext|].
  intros c t Hc. apply constructed_client in Hc as (Ht & -> & _).
  destruct (empty_setting_falsy environ name Hin Hempty) as [Hf Heq].
  split; [exact Hf|].
  exists (new_client (delete name environ)),
         (snd (LLMCacheClient_init (delete name environ))).
  split; [|symmetry; exact Heq].
  apply construction_succeeds. rewrite Htext. exact Ht.
Qed.

(** ** The query operation *)

Ltac unfold_query :=
  unfold query_command, query_command_gen, query_attempt, query_failed,
    try_except_Exception, inlineCallbacks, py_get, log_msg, log_err, emit,
    returnValue, raise, lift, bind, ret in *.

(** The [try] block never completes normally: it leaves through
    [defer.returnValue] or through an exception. *)
Lemma query_attempt_raises P self command :
  exists t r, query_attempt P self command = (t, inl r).
Proof.
  unfold_query.
  destruct (json_dumps P _) as [e|json_data]; simpl; [eauto|].
  destruct (agent_request P _ _ _ _) as [e|response]; simpl; [eauto|].
  destruct (readBody P _) as [e|body]; simpl; [eauto|].
  destruct (bytes_decode P _) as [e|text]; simpl; [eauto|].
  destruct (json_loads P _) as [e|v]; simpl; [eauto|].
  destruct v; simpl; eauto.
Qed.

(** An exception anywhere in the [try] block is logged and turned into
    [None]. *)
Lemma query_command_absorbs P self command t e :
  enabled self = true ->
  query_attempt P self command = (t, inl (RaisedException e)) ->
  query_command P self command =
    (t ++ [LogErr ("Error querying LLM cache: " +:+ exc_str e)], Fired PyNone).
Proof.
  intros Hen Hq.
  unfold query_command, query_command_gen. rewrite Hen, Hq. reflexivity.
Qed.

(** The Deferred of [query_command] always fires; it never fails. *)
Lemma query_command_fires P self command :
  exists t v, query_command P self command = (t, Fired v).
Proof.
  unfold query_command, query_command_gen.
  destruct (enabled self); simpl; [|eauto].
  destruct (query_attempt_raises P self command) as (t & r & ->).
  destruct r as [e|v]; simpl; eauto.
Qed.

(** What the query does once a reply has been parsed. *)
Lemma query_command_parsed P self command v :
  enabled self = true ->
  reply_parsed P self command v ->
  exists t,
    query_command P self command =
      (t, Fired match v with
                | PyDict d => default (PyStr "") (dict_lookup d "response")
                | _ => PyNone
                end).
Proof.
  intros Hen (json_data & response & body & text & H1 & H2 & H3 & H4 & H5).
  unfold_query. rewrite Hen. simpl.
  rewrite H1. simpl. rewrite H2. simpl. rewrite H3. simpl.
  rewrite H4. simpl. rewrite H5. simpl.
  destruct v; simpl; eauto.
Qed.

(** The query writes nothing to the terminal and never ends the command. *)
Lemma query_command_quiet P self command :
  Forall (fun ev => match ev with TermWrite _ | CmdExit => False | _ => True end)
    (fst (query_command P self command)).
Proof.
  unfold_query.
  destruct (enabled self); simpl; [|constructor].
  destruct (json_dumps P _) as [e|json_data]; simpl; [repeat constructor|].
  destruct (agent_request P _ _ _ _) as [e|response]; simpl; [repeat constructor|].
  destruct (readBody P _) as [e|body]; simpl; [repeat constructor|].
  destruct (bytes_decode P _) as [e|text]; simpl; [repeat constructor|].
  destruct (json_loads P _) as [e|v]; simpl; [repeat constructor|].
  destruct v; simpl; repeat constructor.
Qed.

(** C2: a disabled client answers [None] at once; nothing is logged, no
    payload is built and no request is issued, whatever the platform. *)
Theorem disabled_query_is_silent (P : Platform) (self : LLMCacheClient)
    (command : string) :
  enabled self = false ->
  query_command P self command = ([], Fired PyNone)
  /\ network_activity (fst (query_command P self command)) = [].
Proof.
  intros Hdis.
  assert (H : query_command P self command = ([], Fired PyNone)).
  { unfold query_command, query_command_gen. rewrite Hdis. reflexivity. }
  rewrite H. split; reflexivity.
Qed.

(** C3: when the reply parses to a mapping whose key "response" holds the
    string X, the query fires with exactly X. *)
Theorem query_returns_response (P : Platform) (self : LLMCacheClient)
    (command : string) (d : list (string * py_value)) (X : string) :
  enabled self = true ->
  reply_parsed P self command (PyDict d) ->
  dict_lookup d "response" = Some (PyStr X) ->
  snd (query_command P self command) = Fired (PyStr X).
Proof.
  intros Hen Hreply Hkey.
  destruct (query_command_parsed P self command _ Hen Hreply) as (t & ->).
  simpl. rewrite Hkey. reflexivity.
Qed.

Ltac fired_none := do 2 eexists; split; [reflexivity | left; reflexivity].

(** The part of C1 that holds on every platform: the Deferred fires (it
    never fails), a disabled client and every exception inside the [try]
    block give None, and any other result is the value stored under
    "response" in a reply that parsed to a mapping. *)
Lemma query_command_total (P : Platform) (self : LLMCacheClient) (command : string) :
  exists t v,
    query_command P self command = (t, Fired v)
    /\ (v = PyNone
        \/ exists d, reply_parsed P self command (PyDict d)
                     /\ v = default (PyStr "") (dict_lookup d "response")).
Proof.
  unfold reply_parsed. unfold_query.
  destruct (enabled self); simpl; [|fired_none].
  destruct (json_dumps P _) as [e|json_data] eqn:H1; simpl; [fired_none|].
  destruct (agent_request P _ _ _ _) as [e|response] eqn:H2; simpl; [fired_none|].
  destruct (readBody P _) as [e|body] eqn:H3; simpl; [fired_none|].
  destruct (bytes_decode P _) as [e|text] eqn:H4; simpl; [fired_none|].
  destruct (json_loads P _) as [e|v] eqn:H5; simpl; [fired_none|].
  destruct v; simpl; try fired_none.
  do 2 eexists. split; [reflexivity|]. right.
  exists d. split; [|reflexivity].
  exists json_data, response, body, text. auto.
Qed.

(** ** The handler *)

Lemma terminal_writes_app t1 t2 :
  terminal_writes (t1 ++ t2) = terminal_writes t1 ++ terminal_writes t2.
Proof.
  induction t1 as [|ev t1 IH]; simpl; [reflexivity|].
  destruct ev; simpl; rewrite IH; reflexivity.
Qed.

Lemma terminal_writes_quiet t :
  Forall (fun ev => match ev with TermWrite _ | CmdExit => False | _ => True end) t ->
  terminal_writes t = [].
Proof.
  induction 1 as [|ev t Hev _ IH]; simpl; [reflexivity|].
  destruct ev; simpl; try exact IH; contradiction.
Qed.

Lemma terminal_writes_init environ :
  terminal_writes (snd (LLMCacheClient_init environ)) = [].
Proof.
  unfold LLMCacheClient_init. simpl.
  match goal with |- context [if ?b then _ else _] => destruct b end; reflexivity.
Qed.

Lemma terminal_writes_init_log w : terminal_writes (init_log w) = [].
Proof.
  unfold init_log, get_llm_cache_client.
  destruct (_llm_cache_client w) as [c|]; [reflexivity|].
  pose proof (terminal_writes_init (os_environ w)) as H.
  destruct (LLMCacheClient_init (os_environ w)) as [c t]. exact H.
Qed.

Lemma append_nl_nonempty s : s +:+ nl <> "".
Proof. destruct s; discriminate. Qed.

(** [endswith] on the line feed is the last-character test. *)
Lemma endswith_nl_step c c' s :
  endswith (String c (String c' s)) nl = endswith (String c' s) nl.
Proof.
  unfold endswith, nl. simpl String.length.
  replace (S (S (String.length s)) - 1) with (S (String.length s)) by lia.
  replace (S (String.length s) - 1) with (String.length s) by lia.
  reflexivity.
Qed.

Lemma endswith_single c :
  endswith (String c "") nl = Ascii.eqb c (ascii_of_nat 10).
Proof.
  unfold endswith, nl. simpl.
  destruct (Ascii.eqb c (ascii_of_nat 10)); reflexivity.
Qed.

Lemma endswith_nl_iff s : endswith s nl = true <-> newline_terminated s.
Proof.
  unfold newline_terminated.
  induction s as [|c s IH].
  - split; [discriminate|]. intros (s' & H). symmetry in H.
    exfalso. exact (append_nl_nonempty _ H).
  - destruct s as [|c' s].
    + rewrite endswith_single. split.
      * intros H. apply Ascii.eqb_eq in H. subst c. exists "". reflexivity.
      * intros (s' & H). destruct s' as [|a r]; simpl in H.
        -- injection H as ->. apply Ascii.eqb_refl.
        -- injection H as _ H. exfalso. exact (append_nl_nonempty _ (eq_sym H)).
    + rewrite endswith_nl_step, IH. split.
      * intros (s' & H). exists (String c s'). simpl. rewrite H. reflexivity.
      * intros (s' & H). destruct s' as [|a r]; simpl in H.
        -- discriminate.
        -- injection H as _ H. exists r. exact H.
Qed.

Lemma endswith_append_nl s : endswith (s +:+ nl) nl = true.
Proof. apply endswith_nl_iff. exists s. reflexivity. Qed.

Ltac unfold_respond :=
  unfold respond, write, exit, py_endswith, emit, raise, bind, ret in *.

Lemma respond_fallback name v :
  v = PyNone \/ v = PyStr "" ->
  respond name v = ([TermWrite (not_found_line name); CmdExit], inr tt).
Proof. intros [->| ->]; reflexivity. Qed.

Lemma respond_text name R :
  R <> "" ->
  respond name (PyStr R) =
    (if endswith R nl then [TermWrite R; CmdExit]
     else [TermWrite R; TermWrite nl; CmdExit], inr tt).
Proof.
  intros Hne. unfold_respond. simpl.
  apply String.eqb_neq in Hne. rewrite Hne. simpl.
  destruct (endswith R nl); reflexivity.
Qed.

(** One run of [start], in terms of the query it makes and the response
    step that follows. *)
Lemma start_run P w name args tq v :
  query_command P (client_of w) (full_command name args) = (tq, Fired v) ->
  snd (start P w name args) =
    (LogMsg ("LLM command handler invoked for: " +:+ full_command name args)
       :: init_log w ++ tq ++ fst (respond name v),
     match snd (respond name v) with
     | inr _ => Fired PyNone
     | inl (DefGenReturn r) => Fired r
     | inl (RaisedException e) => Failed e
     end).
Proof.
  unfold start, start_gen, client_of, init_log.
  destruct (get_llm_cache_client w) as [[c w'] t0]. simpl.
  intros ->. unfold log_msg, emit, emit_all, bind, ret, yield_, inlineCallbacks.
  simpl. destruct (respond name v) as [tr [[e|r]|[]]]; simpl;
    rewrite ?app_nil_r, <- ?app_assoc; reflexivity.
Qed.

Lemma handler_writes P w name args v :
  query_outcome P w name args = Fired v ->
  terminal_writes (handler_trace P w name args) = terminal_writes (fst (respond name v)).
Proof.
  unfold query_outcome, handler_trace. intros Hq.
  pose proof (query_command_quiet P (client_of w) (full_command name args)) as Hquiet.
  destruct (query_command P (client_of w) (full_command name args)) as [tq d] eqn:E.
  simpl in Hq, Hquiet. subst d.
  rewrite (start_run _ _ _ _ _ _ E). simpl.
  rewrite !terminal_writes_app, terminal_writes_init_log,
    (terminal_writes_quiet _ Hquiet). reflexivity.
Qed.

Lemma append_cons c s t : String c s +:+ t = String c (s +:+ t).
Proof. reflexivity. Qed.

Lemma append_empty_r s : s +:+ "" = s.
Proof.
  induction s as [|c s IH]; [reflexivity|].
  rewrite append_cons, IH. reflexivity.
Qed.

Lemma join_space_cons name args : join " " (name :: args) = name +:+ spaced args.
Proof.
  revert name. induction args as [|a args IH]; intros name.
  - simpl. symmetry. apply append_empty_r.
  - change (join " " (name :: a :: args)) with (name +:+ " " +:+ join " " (a :: args)).
    rewrite IH. reflexivity.
Qed.

(** C5: whenever the query comes back absent or empty, the handler writes
    exactly one line, "bash: N: command not found" and a line feed, naming
    the command and none of its arguments, and then completes. *)
Theorem fallback_line_names_command_only (P : Platform) (w : World)
    (name : string) (args : list string) :
  query_outcome P w name args = Fired PyNone
  \/ query_outcome P w name args = Fired (PyStr "") ->
  terminal_writes (handler_trace P w name args)
    = ["bash: " +:+ name +:+ ": command not found" +:+ nl]
  /\ terminal_output (handler_trace P w name args)
     = "bash: " +:+ name +:+ ": command not found" +:+ nl.
Proof.
  intros H.
  assert (Hw : terminal_writes (handler_trace P w name args) = [not_found_line name]).
  { destruct H as [H|H]; rewrite (handler_writes _ _ _ _ _ H), respond_fallback; auto. }
  unfold terminal_output. rewrite Hw. split; reflexivity.
Qed.

(** C6: a non-empty response R is written verbatim, followed by one line
    feed exactly when R does not already end with one; the output is R
    itself or R with one line feed appended, it always ends with a line
    feed, and handing that output back as a response reproduces it. *)
Theorem response_is_newline_terminated (P : Platform) (w : World)
    (name : string) (args : list string) (R : string) :
  R <> "" ->
  query_outcome P w name args = Fired (PyStr R) ->
  let out := terminal_output (handler_trace P w name args) in
  (newline_terminated R ->
     terminal_writes (handler_trace P w name args) = [R] /\ out = R)
  /\ (~ newline_terminated R ->
     terminal_writes (handler_trace P w name args) = [R; nl] /\ out = R +:+ nl)
  /\ newline_terminated out
  /\ terminal_writes (fst (respond name (PyStr out))) = [out].
Proof.
  intros Hne Hq out.
  assert (Hw : terminal_writes (handler_trace P w name args)
               = if endswith R nl then [R] else [R; nl]).
  { rewrite (handler_writes _ _ _ _ _ Hq), (respond_text _ _ Hne).
    destruct (endswith R nl); reflexivity. }
  assert (Hout : out = if endswith R nl then R else R +:+ nl).
  { unfold out, terminal_output. rewrite Hw.
    destruct (endswith R nl); reflexivity. }
  assert (Hterm : newline_terminated out).
  { rewrite Hout. destruct (endswith R nl) eqn:E.
    - apply endswith_nl_iff. exact E.
    - exists R. reflexivity. }
  assert (Hout_ne : out <> "").
  { destruct Hterm as (s' & ->). apply append_nl_nonempty. }
  split; [|split; [|split]].
  - intros Hnl. apply endswith_nl_iff in Hnl. rewrite Hw, Hout, Hnl. auto.
  - intros Hnl. destruct (endswith R nl) eqn:E.
    + exfalso. apply Hnl, endswith_nl_iff. exact E.
    + rewrite Hw, Hout. auto.
  - exact Hterm.
  - rewrite (respond_text _ _ Hout_ne).
    apply endswith_nl_iff in Hterm. rewrite Hterm. reflexivity.
Qed.

(** C8: the command line handed to the query is the name followed by the
    arguments in order, each behind a single space, with the tokens taken
    as they are; the run of the handler consists of its own log record,
    the query on this very string, and the response step on what the
    query fired with. *)
Theorem command_line_is_space_joined (P : Platform) (w : World)
    (name : string) (args : list string) :
  full_command name args = name +:+ spaced args
  /\ exists tq v,
       query_command P (client_of w) (name +:+ spaced args) = (tq, Fired v)
       /\ handler_trace P w name args =
            LogMsg ("LLM command handler invoked for: " +:+ name +:+ spaced args)
              :: init_log w ++ tq ++ fst (respond name v).
Proof.
  assert (Hcmd : full_command name args = name +:+ spaced args).
  { unfold full_command. apply join_space_cons. }
  split; [exact Hcmd|].
  rewrite <- Hcmd.
  destruct (query_command_fires P (client_of w) (full_command name args))
    as (tq & v & Hq).
  exists tq, v. split; [exact Hq|].
  unfold handler_trace. rewrite (start_run _ _ _ _ _ _ Hq). reflexivity.
Qed.

(** C4, amended: when the reply parses to a mapping that has no key
    "response", the query fires with the empty string, a present outcome,
    and the handler then writes the not-found line, not a blank one. *)
Theorem missing_response_key_falls_back (P : Platform) (w : World)
    (name : string) (args : list string) (d : list (string * py_value)) :
  enabled (client_of w) = true ->
  reply_parsed P (client_of w) (full_command name args) (PyDict d) ->
  dict_lookup d "response" = None ->
  query_outcome P w name args = Fired (PyStr "")
  /\ terminal_writes (handler_trace P w name args)
     = ["bash: " +:+ name +:+ ": command not found" +:+ nl].
Proof.
  intros Hen Hreply Hkey.
  assert (Hq : query_outcome P w name args = Fired (PyStr "")).
  { unfold query_outcome.
    destruct (query_command_parsed P _ _ _ Hen Hreply) as (t & ->).
    simpl. rewrite Hkey. reflexivity. }
  split; [exact Hq|].
  rewrite (handler_writes _ _ _ _ _ Hq), respond_fallback; auto.
Qed.

(** ** Concrete runs *)

Example scenario_1 :
  snd (start (Reference.replying body_permission_denied) world_enabled "foobar" ["-x"]) =
  ([ LogMsg "LLM command handler invoked for: foobar -x";
     LogMsg "LLM Cache client initialized: http://10.0.0.5:9000/ask";
     LogMsg "Querying LLM cache for command: foobar -x";
     HttpRequest "POST" "http://10.0.0.5:9000/ask"
       [("Content-Type", ["application/json"]); ("Content-Length", ["24"])]
       (object_body "content" (Reference.q +:+ "foobar -x" +:+ Reference.q));
     ReadBody;
     LogMsg "LLM cache response received for: foobar -x";
     TermWrite "foobar: permission denied";
     TermWrite nl;
     CmdExit ],
   Fired PyNone).
Proof. vm_compute. reflexivity. Qed.

Example scenario_2 :
  snd (start (Reference.replying body_permission_denied) world_disabled "zork" []) =
  ([ LogMsg "LLM command handler invoked for: zork";
     LogMsg "LLM Cache client disabled (environment variables not set)";
     TermWrite ("bash: zork: command not found" +:+ nl);
     CmdExit ],
   Fired PyNone).
Proof. vm_compute. reflexivity. Qed.

Example scenario_3 :
  snd (start (Reference.unreachable Reference.ConnectionRefusedError) world_enabled "ls" ["-z"]) =
  ([ LogMsg "LLM command handler invoked for: ls -z";
     LogMsg "LLM Cache client initialized: http://10.0.0.5:9000/ask";
     LogMsg "Querying LLM cache for command: ls -z";
     HttpRequest "POST" "http://10.0.0.5:9000/ask"
       [("Content-Type", ["application/json"]); ("Content-Length", ["20"])]
       (object_body "content" (Reference.q +:+ "ls -z" +:+ Reference.q));
     LogErr "Error querying LLM cache: Connection was refused by other side: 111: Connection refused.";
     TermWrite ("bash: ls: command not found" +:+ nl);
     CmdExit ],
   Fired PyNone).
Proof. vm_compute. reflexivity. Qed.

Example scenario_4 :
  terminal_output
    (handler_trace (Reference.replying "<html>Bad Gateway</html>") world_enabled "echo" ["hi"])
    = "bash: echo: command not found" +:+ nl
  /\ handler_result (Reference.replying "<html>Bad Gateway</html>") world_enabled "echo" ["hi"]
     = Fired PyNone.
Proof. vm_compute. split; reflexivity. Qed.

Example tokens_are_not_quoted :
  full_command "echo" ["a b"; ""; "c"] = "echo a b  c".
Proof. reflexivity. Qed.

Example second_query_reuses_client :
  let w1 := fst (start (Reference.replying body_permission_denied) world_enabled "foobar" ["-x"]) in
  _llm_cache_client w1 = Some enabled_client /\ init_log w1 = [].
Proof. vm_compute. split; reflexivity. Qed.

(** C1: on the reply [{"response": 42}] the query fires with the integer
    42, which is neither a string nor None, although every exit of
    [query_command] is announced to yield one of the two. *)
Theorem query_fires_with_non_string :
  reply_parsed (Reference.replying body_response_42) enabled_client "ls"
    (PyDict [("response", PyInt 42)])
  /\ snd (query_command (Reference.replying body_response_42) enabled_client "ls")
     = Fired (PyInt 42)
  /\ is_optional_str (PyInt 42) = false.
Proof.
  split; [|split; vm_compute; reflexivity].
  unfold reply_parsed. eexists _, _, _, _.
  repeat split; vm_compute; reflexivity.
Qed.

(** What that value does to the handler: [start] fails on it with an
    [AttributeError] before reaching [self.exit()], so the command never
    completes. *)
Lemma handler_breaks_on_non_string :
  (exists e, handler_result (Reference.replying body_response_42) world_enabled "ls" []
             = Failed e
             /\ exc_class e = "AttributeError")
  /\ command_exited
       (handler_trace (Reference.replying body_response_42) world_enabled "ls" [])
     = false.
Proof.
  split; [|vm_compute; reflexivity].
  eexists. split; vm_compute; reflexivity.
Qed.

(** C4, as stated, fails: the body [[]] is valid JSON without a "response"
    key, and on it the query fires with None, not with the empty string. *)
Lemma non_object_reply_is_absent :
  reply_parsed (Reference.replying body_empty_array) enabled_client "ls" (PyList [])
  /\ snd (query_command (Reference.replying body_empty_array) enabled_client "ls")
     = Fired PyNone
  /\ snd (query_command (Reference.replying body_empty_array) enabled_client "ls")
     <> Fired (PyStr "").
Proof.
  split; [|split; [vm_compute; reflexivity|vm_compute; discriminate]].
  unfold reply_parsed. eexists _, _, _, _.
  repeat split; vm_compute; reflexivity.
Qed.

(** *** Instances *)

Lemma enabled_iff_all_nonempty_witness :
  (exists c t, LLMCacheClient_construct env_all_set = inr (c, t)
               /\ enabled c = true)
  /\ (exists c t, LLMCacheClient_construct env_url_empty = inr (c, t)
                  /\ enabled c = false).
Proof.
  split.
  - destruct (enabled_iff_all_nonempty env_all_set) as (c & t & Hc & Hiff & _);
      [vm_compute; reflexivity|].
    exists c, t. split; [exact Hc|]. apply Hiff.
    unfold setting_names, nonempty_setting, env_all_set.
    repeat constructor; eexists; (split; [vm_compute; reflexivity|discriminate]).
  - destruct (enabled_iff_all_nonempty env_url_empty) as (c & t & Hc & Hiff & Hdis);
      [vm_compute; reflexivity|].
    exists c, t. split; [exact Hc|]. apply Hdis.
    intros H. inversion H as [|? ? (v & Hv & Hne) _]; subst.
    vm_compute in Hv. injection Hv as <-. apply Hne. reflexivity.
Defined.

Lemma full_url_composition_witness :
  (exists c t, LLMCacheClient_construct ∅ = inr (c, t)
               /\ full_url c = "http://localhost:8080/query")
  /\ full_url (new_client env_all_set) = "http://10.0.0.5:9000/ask".
Proof.
  split.
  - apply (proj2 (full_url_composition ∅)).
    unfold setting_names. repeat constructor.
  - destruct (proj1 (full_url_composition env_all_set) (new_client env_all_set)
                (snd (LLMCacheClient_init env_all_set))) as [H _].
    + vm_compute. reflexivity.
    + rewrite H. vm_compute. reflexivity.
Defined.

Lemma empty_setting_disables_witness :
  enabled (new_client env_url_empty) = false
  /\ exists c' t',
       LLMCacheClient_construct (delete "LLM_CACHE_URL" env_url_empty) = inr (c', t')
       /\ enabled c' = enabled (new_client env_url_empty).
Proof.
  apply (proj2 (empty_setting_disables env_url_empty "LLM_CACHE_URL"
                  ltac:(unfold setting_names; constructor)
                  ltac:(vm_compute; reflexivity))
           (new_client env_url_empty) (snd (LLMCacheClient_init env_url_empty))).
  vm_compute. reflexivity.
Defined.

Lemma disabled_query_is_silent_witness :
  enabled (new_client ∅) = false
  /\ query_command (Reference.replying body_permission_denied) (new_client ∅) "zork"
     = ([], Fired PyNone).
Proof.
  split; [reflexivity|].
  apply (disabled_query_is_silent (Reference.replying body_permission_denied) (new_client ∅) "zork").
  reflexivity.
Defined.

Lemma query_returns_response_witness :
  snd (query_command (Reference.replying body_permission_denied) enabled_client "foobar -x")
    = Fired (PyStr "foobar: permission denied").
Proof.
  apply (query_returns_response (Reference.replying body_permission_denied) enabled_client
           "foobar -x" [("response", PyStr "foobar: permission denied")]).
  - vm_compute. reflexivity.
  - unfold reply_parsed. eexists _, _, _, _.
    repeat split; vm_compute; reflexivity.
  - reflexivity.
Defined.

Lemma missing_response_key_falls_back_witness :
  query_outcome (Reference.replying body_status_only) world_enabled "ls" ["-z"]
    = Fired (PyStr "")
  /\ terminal_writes (handler_trace (Reference.replying body_status_only) world_enabled "ls" ["-z"])
     = ["bash: ls: command not found" +:+ nl].
Proof.
  apply (missing_response_key_falls_back (Reference.replying body_status_only) world_enabled
           "ls" ["-z"] [("status", PyStr "ok")]).
  - vm_compute. reflexivity.
  - unfold reply_parsed. eexists _, _, _, _.
    repeat split; vm_compute; reflexivity.
  - reflexivity.
Defined.

Lemma fallback_line_names_command_only_witness :
  terminal_writes
    (handler_trace (Reference.unreachable Reference.ConnectionRefusedError) world_enabled "ls" ["-z"])
    = ["bash: ls: command not found" +:+ nl]
  /\ terminal_writes (handler_trace (Reference.replying body_status_only) world_enabled "ls" ["-z"])
     = ["bash: ls: command not found" +:+ nl].
Proof.
  split.
  - apply (fallback_line_names_command_only (Reference.unreachable Reference.ConnectionRefusedError)
             world_enabled "ls" ["-z"]).
    left. vm_compute. reflexivity.
  - apply (fallback_line_names_command_only (Reference.replying body_status_only)
             world_enabled "ls" ["-z"]).
    right. vm_compute. reflexivity.
Defined.

Lemma response_is_newline_terminated_witness :
  terminal_writes
    (handler_trace (Reference.replying body_permission_denied) world_enabled "foobar" ["-x"])
    = ["foobar: permission denied"; nl]
  /\ terminal_output
       (handler_trace (Reference.replying body_permission_denied) world_enabled "foobar" ["-x"])
     = "foobar: permission denied" +:+ nl.
Proof.
  apply (response_is_newline_terminated (Reference.replying body_permission_denied)
           world_enabled "foobar" ["-x"] "foobar: permission denied").
  - discriminate.
  - vm_compute. reflexivity.
  - intros (s' & H).
    assert (E : endswith "foobar: permission denied" nl = true).
    { apply endswith_nl_iff. exists s'. exact H. }
    vm_compute in E. discriminate E.
Defined.

(** ** Further properties of the client *)

Lemma query_command_enabled P self command :
  enabled self = true ->
  query_command P self command =
    inlineCallbacks
      (try_except_Exception (query_attempt P self command) query_failed ;;
       ret PyNone).
Proof.
  intros Hen. unfold query_command, query_command_gen. rewrite Hen. reflexivity.
Qed.

Lemma query_command_disabled P self command :
  enabled self = false -> query_command P self command = ([], Fired PyNone).
Proof.
  intros Hdis. unfold query_command, query_command_gen. rewrite Hdis. reflexivity.
Qed.

(** Every run of an enabled client's query, by the step at which it
    ends. *)
Lemma query_command_shape P self command :
  enabled self = true ->
  (exists e,
      json_dumps P (request_payload command) = inl e
      /\ query_command P self command = ([error_record e], Fired PyNone))
  \/ (exists json_data,
        json_dumps P (request_payload command) = inr json_data
        /\ ((exists e,
               agent_request P "POST" (full_url self) (request_headers json_data)
                 json_data = inl e
               /\ query_command P self command =
                    (request_events self command json_data ++ [error_record e],
                     Fired PyNone))
            \/ (exists response,
                  agent_request P "POST" (full_url self) (request_headers json_data)
                    json_data = inr response
                  /\ ((exists e,
                         reply_unusable P response e
                         /\ query_command P self command =
                              (request_events self command json_data
                                 ++ [ReadBody; error_record e],
                               Fired PyNone))
                      \/ (exists d,
                            reply_parsed P self command (PyDict d)
                            /\ query_command P self command =
                                 (request_events self command json_data
                                    ++ [ReadBody;
                                        LogMsg ("LLM cache response received for: "
                                                +:+ command)],
                                  Fired (default (PyStr "")
                                           (dict_lookup d "response")))))))).
Proof.
  intros Hen. rewrite (query_command_enabled _ _ _ Hen).
  unfold reply_parsed, error_record, request_events. unfold_query.
  destruct (json_dumps P _) as [e|json_data] eqn:H1; simpl; [left; eauto|].
  right. exists json_data. split; [reflexivity|].
  destruct (agent_request P _ _ _ _) as [e|response] eqn:H2; simpl; [left; eauto|].
  right. exists response. split; [reflexivity|].
  destruct (readBody P _) as [e|body] eqn:H3; simpl.
  { left. exists e. split; [apply body_unreadable; exact H3|reflexivity]. }
  destruct (bytes_decode P _) as [e|text] eqn:H4; simpl.
  { left. exists e. split; [eapply body_undecodable; eassumption|reflexivity]. }
  destruct (json_loads P _) as [e|v] eqn:H5; simpl.
  { left. exists e. split; [eapply body_unparseable; eassumption|reflexivity]. }
  destruct v; simpl;
    try (left; eexists; split;
         [eapply body_not_a_mapping; [eassumption..|intros d' Hd; discriminate Hd]
         |reflexivity]).
  right. exists d. split; [|reflexivity].
  exists json_data, response, body, text. auto.
Qed.

Ltac in_trace H :=
  repeat (apply elem_of_cons in H as [H|H];
          [try discriminate H|]);
  try (apply elem_of_nil in H; contradiction).

(** A request found in the trace of a query is the one that lines 103-108
    build. *)
Lemma request_in_trace P self command m target h b :
  HttpRequest m target h b ∈ fst (query_command P self command) ->
  enabled self = true
  /\ m = "POST" /\ target = full_url self
  /\ json_dumps P (request_payload command) = inr b
  /\ h = request_headers b.
Proof.
  destruct (enabled self) eqn:Hen.
  2:{ rewrite (query_command_disabled _ _ _ Hen). simpl. intros H.
      apply elem_of_nil in H. contradiction. }
  destruct (query_command_shape P self command Hen)
    as [(e & _ & ->)|(d & Hd & [(e & _ & ->)|(r & _ & [(e & _ & ->)|(d' & _ & ->)])])];
    unfold request_events, error_record; simpl; intros H.
  - in_trace H.
  - apply elem_of_cons in H as [H|H]; [discriminate H|].
    apply elem_of_cons in H as [H|H]; [|in_trace H].
    injection H as -> -> -> ->. auto.
  - apply elem_of_cons in H as [H|H]; [discriminate H|].
    apply elem_of_cons in H as [H|H]; [|in_trace H].
    injection H as -> -> -> ->. auto.
  - apply elem_of_cons in H as [H|H]; [discriminate H|].
    apply elem_of_cons in H as [H|H]; [|in_trace H].
    injection H as -> -> -> ->. auto.
Qed.

(** X1: a query issues at most one request, never a retry; a request it
    issues is a POST to the client's target address, its body is the
    serialized payload [{"content": command}], and its headers declare the
    body as JSON with a Content-Length equal to the length of that body. *)
Theorem at_most_one_request (P : Platform) (self : LLMCacheClient)
    (command : string) :
  request_count (fst (query_command P self command)) <= 1
  /\ forall m target h b,
       HttpRequest m target h b ∈ fst (query_command P self command) ->
       m = "POST" /\ target = full_url self
       /\ json_dumps P (request_payload command) = inr b
       /\ header "Content-Type" h = Some ["application/json"]
       /\ header "Content-Length" h = Some [str_of_len (String.length b)].
Proof.
  split.
  - destruct (enabled self) eqn:Hen.
    2:{ rewrite (query_command_disabled _ _ _ Hen). simpl. lia. }
    destruct (query_command_shape P self command Hen)
      as [(e & _ & ->)|(d & _ & [(e & _ & ->)|(r & _ & [(e & _ & ->)|(d' & _ & ->)])])];
      simpl; lia.
  - intros m target h b Hin.
    destruct (request_in_trace _ _ _ _ _ _ _ Hin) as (_ & -> & -> & Hb & ->).
    repeat split; try reflexivity. exact Hb.
Qed.

(** X3: when the request itself fails (connection refused, DNS failure, any
    exception of the transport), the query logs that exception and gives
    None without attempting to read a body. *)
Theorem request_failure_never_reads_body (P : Platform) (self : LLMCacheClient)
    (command json_data : string) (e : PyException) :
  enabled self = true ->
  json_dumps P (request_payload command) = inr json_data ->
  agent_request P "POST" (full_url self) (request_headers json_data) json_data
    = inl e ->
  query_command P self command =
    (request_events self command json_data ++ [error_record e], Fired PyNone)
  /\ network_activity (fst (query_command P self command)) =
     [HttpRequest "POST" (full_url self) (request_headers json_data) json_data].
Proof.
  intros Hen Hd Hr.
  assert (H : query_command P self command =
              (request_events self command json_data ++ [error_record e],
               Fired PyNone)).
  { rewrite (query_command_enabled _ _ _ Hen). unfold_query.
    rewrite Hd. simpl. rewrite Hr. reflexivity. }
  rewrite H. split; reflexivity.
Qed.

(** X4: when the service answers but the body cannot be read, is not
    UTF-8, is not JSON, or is JSON other than an object, the query reads the
    body once, logs the exception of the failing step, and gives None. *)
Theorem unusable_reply_is_logged_and_absent (P : Platform)
    (self : LLMCacheClient) (command json_data : string)
    (response : Response P) (e : PyException) :
  enabled self = true ->
  json_dumps P (request_payload command) = inr json_data ->
  agent_request P "POST" (full_url self) (request_headers json_data) json_data
    = inr response ->
  reply_unusable P response e ->
  query_command P self command =
    (request_events self command json_data ++ [ReadBody; error_record e],
     Fired PyNone).
Proof.
  intros Hen Hd Hr Hun.
  rewrite (query_command_enabled _ _ _ Hen). unfold error_record. unfold_query.
  rewrite Hd. simpl. rewrite Hr. simpl.
  destruct Hun as [e H1|body e H1 H2|body text e H1 H2 H3|body text v H1 H2 H3 Hv].
  - rewrite H1. reflexivity.
  - rewrite H1. simpl. rewrite H2. reflexivity.
  - rewrite H1. simpl. rewrite H2. simpl. rewrite H3. reflexivity.
  - rewrite H1. simpl. rewrite H2. simpl. rewrite H3. simpl.
    destruct v; try reflexivity.
    exfalso. exact (Hv d eq_refl).
Qed.

(** X5: a successful exchange is exactly: the log record, one request, one
    read of the body, the log record of success; nothing is logged as an
    error, and the result is the value under "response", or the empty
    string when the key is missing. *)
Theorem successful_exchange_trace (P : Platform) (self : LLMCacheClient)
    (command : string) (d : list (string * py_value)) :
  enabled self = true ->
  reply_parsed P self command (PyDict d) ->
  exists json_data,
    json_dumps P (request_payload command) = inr json_data
    /\ query_command P self command =
         (request_events self command json_data
            ++ [ReadBody; LogMsg ("LLM cache response received for: " +:+ command)],
          Fired (default (PyStr "") (dict_lookup d "response")))
    /\ error_records (fst (query_command P self command)) = []
    /\ request_count (fst (query_command P self command)) = 1.
Proof.
  intros Hen (json_data & response & body & text & H1 & H2 & H3 & H4 & H5).
  exists json_data. split; [exact H1|].
  assert (H : query_command P self command =
              (request_events self command json_data
                 ++ [ReadBody; LogMsg ("LLM cache response received for: " +:+ command)],
               Fired (default (PyStr "") (dict_lookup d "response")))).
  { rewrite (query_command_enabled _ _ _ Hen). unfold_query.
    rewrite H1. simpl. rewrite H2. simpl. rewrite H3. simpl.
    rewrite H4. simpl. rewrite H5. reflexivity. }
  rewrite H. repeat split; reflexivity.
Qed.

(** X6: whenever the query's Deferred has fired, at most one error was
    logged; if one was logged the result is None, and a result other than
    None comes only from an enabled client whose exchange succeeded with a
    JSON object, of which it is the value under "response" (or the empty
    string of a missing key). *)
Theorem error_or_value (P : Platform) (self : LLMCacheClient) (command : string)
    (t : trace) (v : py_value) :
  query_command P self command = (t, Fired v) ->
  List.length (error_records t) <= 1
  /\ (error_records t <> [] -> v = PyNone)
  /\ (v <> PyNone ->
      enabled self = true
      /\ error_records t = []
      /\ exists d, reply_parsed P self command (PyDict d)
                   /\ v = default (PyStr "") (dict_lookup d "response")).
Proof.
  intros Hq.
  destruct (enabled self) eqn:Hen.
  2:{ rewrite (query_command_disabled _ _ _ Hen) in Hq.
      injection Hq as <- <-. simpl. repeat split; try lia; congruence. }
  destruct (query_command_shape P self command Hen)
    as [(e & _ & H)|(d & _ & [(e & _ & H)|(r & _ & [(e & _ & H)|(d' & Hp & H)])])];
    rewrite H in Hq; injection Hq as <- <-; simpl;
    (split; [lia|]); (split; [try reflexivity|]); try congruence.
  intros _. split; [reflexivity|]. split; [reflexivity|]. eauto.
Qed.

(** ** Further properties of the configuration and the singleton *)

Lemma nonempty_setting_default environ name dflt :
  nonempty_setting environ name ->
  exists v, environ !! name = Some v /\ v <> ""
            /\ environ_get_default environ name dflt = v.
Proof.
  intros (v & Hv & Hne). exists v. unfold environ_get_default.
  rewrite Hv. auto.
Qed.

(** X7: the defaults never reach the network: every request of a client
    built from an environment goes to the address, port and endpoint that
    this environment supplies, all three non-empty. *)
Theorem defaults_never_reach_network (P : Platform)
    (environ : gmap string string) (command m target : string)
    (h : list (string * list string)) (b : string) :
  HttpRequest m target h b ∈ fst (query_command P (new_client environ) command) ->
  exists u p e,
    environ !! "LLM_CACHE_URL" = Some u
    /\ environ !! "LLM_CACHE_PORT" = Some p
    /\ environ !! "LLM_CACHE_ENDPOINT" = Some e
    /\ u <> "" /\ p <> "" /\ e <> ""
    /\ target = u +:+ ":" +:+ p +:+ e.
Proof.
  intros Hin.
  destruct (request_in_trace _ _ _ _ _ _ _ Hin) as (Hen & _ & -> & _).
  rewrite enabled_new_client, !andb_true_iff, !truthy_environ_get in Hen.
  destruct Hen as (Hu & Hp & He & _).
  destruct (nonempty_setting_default _ _ "http://localhost" Hu) as (u & Hu1 & Hu2 & Hu3).
  destruct (nonempty_setting_default _ _ "8080" Hp) as (p & Hp1 & Hp2 & Hp3).
  destruct (nonempty_setting_default _ _ "/query" He) as (e & He1 & He2 & He3).
  exists u, p, e. repeat (split; [assumption|]).
  unfold new_client, LLMCacheClient_init. simpl.
  rewrite Hu3, Hp3, He3. reflexivity.
Qed.

(** X8: the client depends on the three settings only: setting or
    removing any other environment variable changes neither its fields nor
    what its construction logs. *)
Theorem unrelated_variables_are_ignored (environ : gmap string string)
    (name value : string) :
  name ∉ setting_names ->
  LLMCacheClient_init (<[name := value]> environ) = LLMCacheClient_init environ
  /\ LLMCacheClient_init (delete name environ) = LLMCacheClient_init environ.
Proof.
  intros Hnot.
  assert (Hne : forall k, k ∈ setting_names -> name <> k).
  { intros k Hk ->. exact (Hnot Hk). }
  assert (H1 : name <> "LLM_CACHE_URL")
    by (apply Hne; unfold setting_names; repeat constructor).
  assert (H2 : name <> "LLM_CACHE_PORT")
    by (apply Hne; unfold setting_names; repeat constructor).
  assert (H3 : name <> "LLM_CACHE_ENDPOINT")
    by (apply Hne; unfold setting_names; repeat constructor).
  unfold LLMCacheClient_init, environ_get, environ_get_default.
  rewrite !(lookup_insert_ne _ _ _ _ H1), !(lookup_insert_ne _ _ _ _ H2),
    !(lookup_insert_ne _ _ _ _ H3), !(lookup_delete_ne _ _ _ H1),
    !(lookup_delete_ne _ _ _ H2), !(lookup_delete_ne _ _ _ H3).
  split; reflexivity.
Qed.

Lemma obtainable_agrees w :
  client_obtainable w ->
  get_llm_cache_client_or_raise w
  = (world_after_get w, inr (client_of w, init_log w)).
Proof.
  unfold client_obtainable, get_llm_cache_client_or_raise, world_after_get,
    client_of, init_log, get_llm_cache_client.
  destruct (_llm_cache_client w) as [c|].
  - reflexivity.
  - intros [[c Hc]|Htext]; [discriminate Hc|].
    unfold LLMCacheClient_construct. rewrite Htext.
    destruct (LLMCacheClient_init (os_environ w)) as [c t]. reflexivity.
Qed.

(** X9: [get_llm_cache_client] builds the client at most once.  When it
    returns a client, an existing one is handed back as it is and a first
    one is built from the environment of that moment; the world left
    behind holds the client returned, and a further call returns that same
    client and logs nothing, also when the environment has changed in
    between.  When the constructor raises, nothing is stored: the world is
    as before and the next call constructs, and raises, again. *)
Theorem singleton_is_created_once (w : World) (environ' : gmap string string) :
  (forall w1 c t,
     get_llm_cache_client_or_raise w = (w1, inr (c, t)) ->
     (_llm_cache_client w = None ->
        LLMCacheClient_construct (os_environ w) = inr (c, t))
     /\ (forall c0, _llm_cache_client w = Some c0 -> c = c0 /\ t = [])
     /\ _llm_cache_client w1 = Some c
     /\ os_environ w1 = os_environ w
     /\ get_llm_cache_client_or_raise w1 = (w1, inr (c, []))
     /\ get_llm_cache_client_or_raise (with_environ environ' w1)
        = (with_environ environ' w1, inr (c, [])))
  /\ (forall w1 e,
        get_llm_cache_client_or_raise w = (w1, inl e) ->
        w1 = w
        /\ _llm_cache_client w = None
        /\ LLMCacheClient_construct (os_environ w) = inl e
        /\ get_llm_cache_client_or_raise w1 = (w1, inl e)).
Proof.
  unfold get_llm_cache_client_or_raise, with_environ.
  destruct (_llm_cache_client w) as [c0|] eqn:Hc.
  - split.
    + intros w1 c t [= <- <- <-]. rewrite Hc. simpl.
      split; [discriminate|]. split; [intros c1 [= <-]; auto|]. auto.
    + intros w1 e H. discriminate H.
  - destruct (LLMCacheClient_construct (os_environ w)) as [e0|[c0 t0]] eqn:Hk.
    + split.
      * intros w1 c t H. discriminate H.
      * intros w1 e [= <- <-]. rewrite Hc, Hk. auto.
    + split.
      * intros w1 c t [= <- <- <-]. simpl.
        split; [reflexivity|]. split; [discriminate|]. auto.
      * intros w1 e H. discriminate H.
Qed.

(** ** Further properties of the handler *)

Lemma append_assoc s1 s2 s3 : (s1 +:+ s2) +:+ s3 = s1 +:+ s2 +:+ s3.
Proof.
  induction s1 as [|c s1 IH]; [reflexivity|].
  rewrite !append_cons, IH. reflexivity.
Qed.

Lemma not_found_line_terminated name : newline_terminated (not_found_line name).
Proof.
  exists ("bash: " +:+ name +:+ ": command not found").
  unfold not_found_line. rewrite !append_assoc. reflexivity.
Qed.

Lemma command_exited_app t1 t2 :
  command_exited (t1 ++ t2) = command_exited t1 || command_exited t2.
Proof. apply existsb_app. Qed.

Lemma command_exited_quiet t :
  Forall (fun ev => match ev with TermWrite _ | CmdExit => False | _ => True end) t ->
  command_exited t = false.
Proof.
  induction 1 as [|ev t Hev _ IH]; [reflexivity|].
  destruct ev; simpl; try exact IH; contradiction.
Qed.

Lemma init_log_quiet w :
  Forall (fun ev => match ev with TermWrite _ | CmdExit => False | _ => True end)
    (init_log w).
Proof.
  unfold init_log, get_llm_cache_client.
  destruct (_llm_cache_client w) as [c|]; [constructor|].
  unfold LLMCacheClient_init. simpl.
  match goal with |- context [if ?b then _ else _] => destruct b end;
    repeat constructor.
Qed.

(** The part of a run of [start] that precedes the response step neither
    writes to the terminal nor ends the command. *)
Lemma before_response_quiet P w name args :
  Forall (fun ev => match ev with TermWrite _ | CmdExit => False | _ => True end)
    (LogMsg ("LLM command handler invoked for: " +:+ full_command name args)
       :: init_log w ++ fst (query_command P (client_of w) (full_command name args))).
Proof.
  constructor; [exact I|].
  apply Forall_app. split; [apply init_log_quiet|apply query_command_quiet].
Qed.

Lemma respond_falsy name v :
  truthy v = false ->
  respond name v = ([TermWrite (not_found_line name); CmdExit], inr tt).
Proof. intros H. unfold_respond. rewrite H. reflexivity. Qed.

Lemma respond_non_text name v :
  truthy v = true ->
  (forall s, v <> PyStr s) ->
  exists e, respond name v = ([], inl (RaisedException e))
            /\ exc_class e = "AttributeError".
Proof.
  intros H Hv. unfold_respond. rewrite H.
  destruct v; simpl; try (eexists; split; reflexivity).
  exfalso. exact (Hv s eq_refl).
Qed.

(** A run of [start] whose response step completes. *)
Lemma start_completes P w name args v tr :
  query_outcome P w name args = Fired v ->
  respond name v = (tr ++ [CmdExit], inr tt) ->
  command_exited tr = false ->
  handler_result P w name args = Fired PyNone
  /\ exists t, handler_trace P w name args = t ++ [CmdExit]
               /\ command_exited t = false
               /\ terminal_writes t = terminal_writes tr.
Proof.
  unfold query_outcome, handler_result, handler_trace. intros Hq Hr Htr.
  pose proof (before_response_quiet P w name args) as Hquiet.
  destruct (query_command P (client_of w) (full_command name args)) as [tq d] eqn:E.
  simpl in Hq, Hquiet. subst d.
  rewrite (start_run _ _ _ _ _ _ E), Hr. simpl. split; [reflexivity|].
  eexists ((LogMsg _ :: init_log w ++ tq) ++ tr).
  split; [|split].
  - simpl. rewrite <- !app_assoc. reflexivity.
  - rewrite command_exited_app, (command_exited_quiet _ Hquiet), Htr. reflexivity.
  - rewrite terminal_writes_app, (terminal_writes_quiet _ Hquiet). reflexivity.
Qed.

Lemma terminal_output_exit t :
  terminal_output (t ++ [CmdExit]) = String.concat "" (terminal_writes t).
Proof.
  unfold terminal_output. rewrite terminal_writes_app. simpl.
  rewrite app_nil_r. reflexivity.
Qed.

(** X10: with a disabled client the whole run of [start] is the handler's
    log record, the log of the client's construction if this is the first
    access, the not-found line and the exit, whatever the platform would
    have answered. *)
Theorem disabled_handler_run (P : Platform) (w : World) (name : string)
    (args : list string) :
  enabled (client_of w) = false ->
  snd (start P w name args) =
    (LogMsg ("LLM command handler invoked for: " +:+ full_command name args)
       :: init_log w ++ [TermWrite (not_found_line name); CmdExit],
     Fired PyNone).
Proof.
  intros Hdis.
  rewrite (start_run P w name args [] PyNone).
  - reflexivity.
  - apply query_command_disabled. exact Hdis.
Qed.

(** X11: any exception inside the query's [try] block, at whatever step,
    shows on the terminal as the plain not-found line; the handler logs the
    error, completes the command, and its own Deferred fires. *)
Theorem failed_exchange_shows_not_found (P : Platform) (w : World)
    (name : string) (args : list string) (t : trace) (e : PyException) :
  enabled (client_of w) = true ->
  query_attempt P (client_of w) (full_command name args)
    = (t, inl (RaisedException e)) ->
  terminal_output (handler_trace P w name args)
    = "bash: " +:+ name +:+ ": command not found" +:+ nl
  /\ error_record e ∈ handler_trace P w name args
  /\ command_exited (handler_trace P w name args) = true
  /\ handler_result P w name args = Fired PyNone.
Proof.
  intros Hen Hq.
  pose proof (query_command_absorbs _ _ _ _ _ Hen Hq) as Hc.
  assert (Ho : query_outcome P w name args = Fired PyNone).
  { unfold query_outcome. rewrite Hc. reflexivity. }
  destruct (start_completes P w name args PyNone [TermWrite (not_found_line name)] Ho)
    as (Hres & t' & Ht' & _ & Hw); [reflexivity|reflexivity|].
  split; [|split; [|split]].
  - rewrite Ht', terminal_output_exit, Hw. reflexivity.
  - unfold handler_trace. rewrite (start_run _ _ _ _ _ _ Hc). simpl.
    apply elem_of_cons. right.
    apply elem_of_app. right. apply elem_of_app. left.
    apply elem_of_app. right. apply elem_of_cons. left. reflexivity.
  - rewrite Ht', command_exited_app. simpl. apply orb_true_r.
  - exact Hres.
Qed.

(** X12: whenever the query gives None or a string, the handler completes:
    its Deferred fires with None, the exit is the last thing it does and it
    happens once, and what the terminal shows ends with a line feed. *)
Theorem handler_completes_on_text_or_none (P : Platform) (w : World)
    (name : string) (args : list string) (v : py_value) :
  query_outcome P w name args = Fired v ->
  is_optional_str v = true ->
  handler_result P w name args = Fired PyNone
  /\ (exists t, handler_trace P w name args = t ++ [CmdExit]
                /\ command_exited t = false)
  /\ newline_terminated (terminal_output (handler_trace P w name args)).
Proof.
  intros Ho Hv.
  assert (Hcases : truthy v = false \/ exists R, v = PyStr R /\ R <> "").
  { destruct v; try discriminate Hv; [left; reflexivity|].
    destruct (String.eqb_spec s "") as [->|Hne]; [left; reflexivity|].
    right. eauto. }
  destruct Hcases as [Hf|(R & -> & Hne)].
  - destruct (start_completes P w name args v [TermWrite (not_found_line name)] Ho)
      as (Hres & t & Ht & Hex & Hw);
      [apply respond_falsy; exact Hf|reflexivity|].
    split; [exact Hres|]. split; [eauto|].
    rewrite Ht, terminal_output_exit, Hw. apply not_found_line_terminated.
  - destruct (endswith R nl) eqn:E.
    + destruct (start_completes P w name args (PyStr R) [TermWrite R] Ho)
        as (Hres & t & Ht & Hex & Hw);
        [rewrite (respond_text _ _ Hne), E; reflexivity|reflexivity|].
      split; [exact Hres|]. split; [eauto|].
      rewrite Ht, terminal_output_exit, Hw. apply endswith_nl_iff. exact E.
    + destruct (start_completes P w name args (PyStr R)
                  [TermWrite R; TermWrite nl] Ho)
        as (Hres & t & Ht & Hex & Hw);
        [rewrite (respond_text _ _ Hne), E; reflexivity|reflexivity|].
      split; [exact Hres|]. split; [eauto|].
      rewrite Ht, terminal_output_exit, Hw. exists R. reflexivity.
Qed.

(** X13: every falsy result of the query, not only None and the empty
    string but also 0, false, an empty list or an empty object found under
    "response", makes the handler write the not-found line and complete. *)
Theorem falsy_values_fall_back (P : Platform) (w : World)
    (name : string) (args : list string) (v : py_value) :
  query_outcome P w name args = Fired v ->
  truthy v = false ->
  terminal_writes (handler_trace P w name args)
    = ["bash: " +:+ name +:+ ": command not found" +:+ nl]
  /\ command_exited (handler_trace P w name args) = true
  /\ handler_result P w name args = Fired PyNone.
Proof.
  intros Ho Hf.
  destruct (start_completes P w name args v [TermWrite (not_found_line name)] Ho)
    as (Hres & t & Ht & Hex & Hw);
    [apply respond_falsy; exact Hf|reflexivity|].
  split; [|split; [|exact Hres]].
  - rewrite Ht, terminal_writes_app, Hw. reflexivity.
  - rewrite Ht, command_exited_app. simpl. apply orb_true_r.
Qed.

(** X14: a truthy result that is not a string (a non-zero number, true, a
    non-empty list or object under "response") breaks the handler: its
    Deferred fails with an AttributeError and the command is never marked
    complete. *)
Theorem truthy_non_text_breaks_handler (P : Platform) (w : World)
    (name : string) (args : list string) (v : py_value) :
  query_outcome P w name args = Fired v ->
  truthy v = true ->
  (forall s, v <> PyStr s) ->
  (exists e, handler_result P w name args = Failed e
             /\ exc_class e = "AttributeError")
  /\ command_exited (handler_trace P w name args) = false.
Proof.
  unfold query_outcome, handler_result, handler_trace. intros Ho Ht Hv.
  pose proof (before_response_quiet P w name args) as Hquiet.
  destruct (query_command P (client_of w) (full_command name args)) as [tq d] eqn:E.
  simpl in Ho, Hquiet. subst d.
  destruct (respond_non_text name v Ht Hv) as (e & Hr & Hc).
  rewrite (start_run _ _ _ _ _ _ E), Hr. simpl. split; [eauto|].
  rewrite app_nil_r. apply (command_exited_quiet _ Hquiet).
Qed.

Lemma respond_trace_local name v : Forall local_event (fst (respond name v)).
Proof.
  unfold_respond.
  destruct v as [|b|z|s|l|d]; simpl;
    try (destruct b); try (destruct (negb (Z.eqb z 0)));
    try (destruct l); try (destruct d);
    try (destruct (negb (String.eqb s "")); simpl; try destruct (endswith s nl));
    simpl; repeat constructor.
Qed.

Lemma network_activity_app t1 t2 :
  network_activity (t1 ++ t2) = network_activity t1 ++ network_activity t2.
Proof.
  induction t1 as [|ev t1 IH]; simpl; [reflexivity|].
  destruct ev; simpl; rewrite IH; reflexivity.
Qed.

Lemma request_count_app t1 t2 :
  request_count (t1 ++ t2) = request_count t1 + request_count t2.
Proof.
  induction t1 as [|ev t1 IH]; simpl; [reflexivity|].
  destruct ev; simpl; rewrite IH; reflexivity.
Qed.

Lemma local_no_network t :
  Forall local_event t -> network_activity t = [] /\ request_count t = 0.
Proof.
  induction 1 as [|ev t Hev _ [IH1 IH2]]; simpl; [auto|].
  destruct ev; simpl in *; try contradiction; auto.
Qed.

Lemma init_log_no_network w :
  network_activity (init_log w) = [] /\ request_count (init_log w) = 0.
Proof.
  unfold init_log, get_llm_cache_client.
  destruct (_llm_cache_client w) as [c|]; [auto|].
  unfold LLMCacheClient_init. simpl.
  match goal with |- context [if ?b then _ else _] => destruct b end; auto.
Qed.

Lemma query_request_count P self command :
  request_count (fst (query_command P self command)) <= 1.
Proof.
  destruct (enabled self) eqn:Hen.
  2:{ rewrite (query_command_disabled _ _ _ Hen). simpl. lia. }
  destruct (query_command_shape P self command Hen)
    as [(e & _ & ->)|(d & _ & [(e & _ & ->)|(r & _ & [(e & _ & ->)|(d' & _ & ->)])])];
    simpl; lia.
Qed.

(** What goes out on the network during a run of [start] is what its
    query sends. *)
Lemma handler_network P w name args :
  network_activity (handler_trace P w name args)
    = network_activity (fst (query_command P (client_of w) (full_command name args)))
  /\ request_count (handler_trace P w name args)
     = request_count (fst (query_command P (client_of w) (full_command name args))).
Proof.
  destruct (query_command_fires P (client_of w) (full_command name args))
    as (tq & v & Hq).
  destruct (local_no_network _ (respond_trace_local name v)) as [Hn Hc].
  destruct (init_log_no_network w) as [Hin Hic].
  unfold handler_trace. rewrite (start_run _ _ _ _ _ _ Hq), Hq. simpl.
  rewrite !network_activity_app, !request_count_app, Hin, Hn, Hic, Hc, app_nil_r.
  split; [reflexivity|lia].
Qed.

Lemma start_world P w name args : fst (start P w name args) = world_after_get w.
Proof.
  unfold start, start_gen, world_after_get.
  destruct (get_llm_cache_client w) as [[c w'] t]. reflexivity.
Qed.

Lemma client_of_world_after_get w : client_of (world_after_get w) = client_of w.
Proof.
  unfold client_of, world_after_get, get_llm_cache_client.
  destruct (_llm_cache_client w) as [c|] eqn:Hc; simpl.
  - rewrite Hc. reflexivity.
  - destruct (LLMCacheClient_init (os_environ w)) as [c t]. reflexivity.
Qed.

(** X15: the handler adds no network activity of its own: one run of
    [start] makes exactly the requests of its one query, hence at most one,
    and none at all with a disabled client. *)
Theorem handler_network_is_the_query (P : Platform) (w : World)
    (name : string) (args : list string) :
  network_activity (handler_trace P w name args)
    = network_activity (fst (query_command P (client_of w) (full_command name args)))
  /\ request_count (handler_trace P w name args) <= 1
  /\ (enabled (client_of w) = false ->
      network_activity (handler_trace P w name args) = []).
Proof.
  destruct (handler_network P w name args) as [Hnet Hcount].
  split; [exact Hnet|]. split.
  - rewrite Hcount. apply query_request_count.
  - intros Hdis. rewrite Hnet, (query_command_disabled _ _ _ Hdis). reflexivity.
Qed.

(** X20: nothing is cached between commands: run again in the world the
    first run left, the same command puts the same request on the network
    again. *)
Theorem repeated_command_is_sent_again (P : Platform) (w : World)
    (name : string) (args : list string) :
  let w1 := fst (start P w name args) in
  network_activity (handler_trace P w1 name args)
    = network_activity (handler_trace P w name args)
  /\ request_count (handler_trace P w1 name args)
     = request_count (handler_trace P w name args).
Proof.
  intros w1. unfold w1.
  destruct (handler_network P (fst (start P w name args)) name args) as [H1 H2].
  destruct (handler_network P w name args) as [H3 H4].
  rewrite H1, H2, H3, H4, start_world, client_of_world_after_get.
  split; reflexivity.
Qed.

(** X16: in a world where the client can be had (one is in place, or the
    settings are text), a run of [start] leaves the client it used in the
    module global and the environment as it was; every later run, also
    with another platform and after the environment has changed, even to
    one that is not text, finds that same client and builds none. *)
Theorem client_survives_runs (P P' : Platform) (w : World)
    (name name' : string) (args args' : list string)
    (environ' : gmap string string) :
  client_obtainable w ->
  let w1 := fst (start P w name args) in
  let w2 := with_environ environ' w1 in
  get_llm_cache_client_or_raise w = (w1, inr (client_of w, init_log w))
  /\ _llm_cache_client w1 = Some (client_of w)
  /\ os_environ w1 = os_environ w
  /\ client_obtainable w2
  /\ get_llm_cache_client_or_raise w2 = (w2, inr (client_of w, []))
  /\ client_of w2 = client_of w
  /\ init_log w2 = []
  /\ fst (start P' w2 name' args') = w2.
Proof.
  intros Hob w1 w2.
  assert (Hw1 : w1 = world_after_get w) by apply start_world.
  assert (Hstored : _llm_cache_client w1 = Some (client_of w)).
  { rewrite Hw1. unfold world_after_get, client_of, get_llm_cache_client.
    destruct (_llm_cache_client w) as [c|] eqn:Hc; simpl; [exact Hc|].
    destruct (LLMCacheClient_init (os_environ w)) as [c t]. reflexivity. }
  assert (Hstored2 : _llm_cache_client w2 = Some (client_of w)) by exact Hstored.
  split; [rewrite Hw1; apply obtainable_agrees; exact Hob|].
  split; [exact Hstored|]. split.
  { rewrite Hw1. unfold world_after_get, get_llm_cache_client.
    destruct (_llm_cache_client w) as [c|]; simpl; [reflexivity|].
    destruct (LLMCacheClient_init (os_environ w)) as [c t]. reflexivity. }
  split; [left; rewrite Hstored2; eauto|].
  split; [unfold get_llm_cache_client_or_raise; rewrite Hstored2; reflexivity|].
  split; [unfold client_of, get_llm_cache_client; rewrite Hstored2; reflexivity|].
  split; [unfold init_log, get_llm_cache_client; rewrite Hstored2; reflexivity|].
  rewrite start_world. unfold world_after_get, get_llm_cache_client.
  rewrite Hstored2. reflexivity.
Qed.

Lemma spaced_app l1 l2 : spaced (l1 ++ l2) = spaced l1 +:+ spaced l2.
Proof.
  induction l1 as [|a l1 IH]; [reflexivity|].
  simpl. unfold spaced in *. simpl. rewrite IH, !append_assoc. reflexivity.
Qed.

(** X18: the command line keeps no trace of where arguments begin and end:
    an argument with a space in it gives the same command line as the two
    arguments it splits into; and with no arguments the command line is
    the bare name. *)
Theorem command_line_loses_argument_boundaries (name : string)
    (before after : list string) (a b : string) :
  full_command name (before ++ (a +:+ " " +:+ b) :: after)
    = full_command name (before ++ a :: b :: after)
  /\ full_command name [] = name.
Proof.
  split; [|reflexivity].
  unfold full_command. rewrite !join_space_cons, !spaced_app.
  do 2 f_equal. unfold spaced. simpl. rewrite !append_assoc. reflexivity.
Qed.

(** X19: whatever calls the transport makes on the body producer, pausing
    and stopping deliver nothing and every [startProducing] delivers the
    whole body in one write: the bytes delivered are the producer's
    [length] times the number of starts, so that one start delivers exactly
    the Content-Length that the request announces. *)
Theorem producer_delivers_declared_length (json_data : string)
    (calls : list producer_call) (consumer : list string) :
  let producer := JSONProducer.__init__ json_data in
  bytes_written (producer_calls producer calls consumer)
    = bytes_written consumer + starts calls * JSONProducer.length producer
  /\ header "Content-Length" (request_headers json_data)
     = Some [str_of_len (JSONProducer.length producer)]
  /\ producer_calls producer [CallStartProducing] [] = [json_data].
Proof.
  intros producer.
  assert (Happ : forall l x, bytes_written (l ++ [x])
                             = bytes_written l + String.length x).
  { induction l as [|y l IH]; intros x; simpl; [lia|]. rewrite IH. lia. }
  split; [|split; reflexivity].
  revert consumer. induction calls as [|c calls IH]; intros consumer.
  - simpl. lia.
  - destruct c; simpl; rewrite IH.
    + unfold JSONProducer.startProducing. simpl. rewrite Happ.
      change (JSONProducer.length producer) with (String.length json_data). lia.
    + unfold JSONProducer.pauseProducing. reflexivity.
    + unfold JSONProducer.stopProducing. reflexivity.
Qed.

(** *** Instances of the further properties *)

Lemma at_most_one_request_witness :
  request_count
    (fst (query_command (Reference.replying body_permission_denied) enabled_client "ls"))
    <= 1
  /\ header "Content-Length"
       (request_headers (object_body "content" (Reference.q +:+ "ls" +:+ Reference.q)))
     = Some ["17"].
Proof.
  destruct (at_most_one_request (Reference.replying body_permission_denied)
              enabled_client "ls") as [Hcount Hreq].
  split; [exact Hcount|].
  destruct (Hreq "POST" "http://10.0.0.5:9000/ask"
              (request_headers (object_body "content" (Reference.q +:+ "ls" +:+ Reference.q)))
              (object_body "content" (Reference.q +:+ "ls" +:+ Reference.q)))
    as (_ & _ & _ & _ & H).
  - vm_compute. apply elem_of_cons. right. apply elem_of_cons. left. reflexivity.
  - rewrite H. vm_compute. reflexivity.
Defined.

Lemma request_failure_never_reads_body_witness :
  network_activity
    (fst (query_command (Reference.unreachable Reference.ConnectionRefusedError)
            enabled_client "ls"))
  = [HttpRequest "POST" (full_url enabled_client)
       (request_headers (object_body "content" (Reference.q +:+ "ls" +:+ Reference.q)))
       (object_body "content" (Reference.q +:+ "ls" +:+ Reference.q))].
Proof.
  apply (request_failure_never_reads_body
           (Reference.unreachable Reference.ConnectionRefusedError) enabled_client
           "ls" (object_body "content" (Reference.q +:+ "ls" +:+ Reference.q))
           Reference.ConnectionRefusedError).
  - vm_compute. reflexivity.
  - vm_compute. reflexivity.
  - reflexivity.
Defined.

Lemma unusable_reply_is_logged_and_absent_witness :
  query_command (Reference.replying body_not_json) enabled_client "ls"
  = (request_events enabled_client "ls"
       (object_body "content" (Reference.q +:+ "ls" +:+ Reference.q))
       ++ [ReadBody;
           error_record (mkException "JSONDecodeError" "Expecting value")],
     Fired PyNone).
Proof.
  apply (unusable_reply_is_logged_and_absent (Reference.replying body_not_json)
           enabled_client "ls"
           (object_body "content" (Reference.q +:+ "ls" +:+ Reference.q))
           body_not_json).
  - vm_compute. reflexivity.
  - vm_compute. reflexivity.
  - reflexivity.
  - apply (body_unparseable (Reference.replying body_not_json) body_not_json
             body_not_json body_not_json); vm_compute; reflexivity.
Defined.

Lemma successful_exchange_trace_witness :
  exists json_data,
    json_dumps (Reference.replying body_permission_denied) (request_payload "foobar -x")
      = inr json_data
    /\ query_command (Reference.replying body_permission_denied) enabled_client
         "foobar -x"
       = (request_events enabled_client "foobar -x" json_data
            ++ [ReadBody; LogMsg "LLM cache response received for: foobar -x"],
          Fired (PyStr "foobar: permission denied")).
Proof.
  destruct (successful_exchange_trace (Reference.replying body_permission_denied)
              enabled_client "foobar -x"
              [("response", PyStr "foobar: permission denied")])
    as (json_data & H1 & H2 & _).
  - vm_compute. reflexivity.
  - unfold reply_parsed. eexists _, _, _, _.
    repeat split; vm_compute; reflexivity.
  - exists json_data. split; [exact H1|exact H2].
Defined.

Lemma error_or_value_witness :
  List.length
    (error_records
       (fst (query_command (Reference.replying body_not_json) enabled_client "ls")))
  <= 1.
Proof.
  refine (proj1 (error_or_value (Reference.replying body_not_json)
                   enabled_client "ls" _ PyNone _)).
  vm_compute. reflexivity.
Defined.

Lemma defaults_never_reach_network_witness :
  exists u p e,
    env_all_set !! "LLM_CACHE_URL" = Some u
    /\ env_all_set !! "LLM_CACHE_PORT" = Some p
    /\ env_all_set !! "LLM_CACHE_ENDPOINT" = Some e
    /\ u <> "" /\ p <> "" /\ e <> ""
    /\ "http://10.0.0.5:9000/ask" = u +:+ ":" +:+ p +:+ e.
Proof.
  apply (defaults_never_reach_network (Reference.replying body_permission_denied)
           env_all_set "ls" "POST" "http://10.0.0.5:9000/ask"
           (request_headers (object_body "content" (Reference.q +:+ "ls" +:+ Reference.q)))
           (object_body "content" (Reference.q +:+ "ls" +:+ Reference.q))).
  vm_compute. apply elem_of_cons. right. apply elem_of_cons. left. reflexivity.
Defined.

Lemma unrelated_variables_are_ignored_witness :
  LLMCacheClient_init (<["PATH" := "/usr/bin"]> env_all_set)
    = LLMCacheClient_init env_all_set
  /\ LLMCacheClient_init (delete "PATH" env_all_set) = LLMCacheClient_init env_all_set.
Proof.
  apply (unrelated_variables_are_ignored env_all_set "PATH" "/usr/bin").
  unfold setting_names. intros H.
  apply elem_of_cons in H as [H|H]; [discriminate H|].
  apply elem_of_cons in H as [H|H]; [discriminate H|].
  apply elem_of_cons in H as [H|H]; [discriminate H|].
  apply elem_of_nil in H. exact H.
Defined.

Lemma singleton_is_created_once_witness :
  _llm_cache_client (world_after_get world_enabled) = Some enabled_client
  /\ get_llm_cache_client_or_raise world_not_text
     = (world_not_text, inl UnicodeEncodeError).
Proof.
  split.
  - refine (proj1 (proj2 (proj2
              (proj1 (singleton_is_created_once world_enabled ∅)
                 (world_after_get world_enabled) enabled_client
                 (snd (LLMCacheClient_init env_all_set)) _)))).
    vm_compute. reflexivity.
  - refine (proj2 (proj2 (proj2
              (proj2 (singleton_is_created_once world_not_text ∅)
                 world_not_text UnicodeEncodeError _)))).
    vm_compute. reflexivity.
Defined.

Lemma disabled_handler_run_witness :
  snd (start (Reference.replying body_permission_denied) world_disabled "zork" [])
  = (LogMsg ("LLM command handler invoked for: " +:+ full_command "zork" [])
       :: init_log world_disabled ++ [TermWrite (not_found_line "zork"); CmdExit],
     Fired PyNone).
Proof.
  apply (disabled_handler_run (Reference.replying body_permission_denied)
           world_disabled "zork" []).
  reflexivity.
Defined.

Lemma failed_exchange_shows_not_found_witness :
  terminal_output
    (handler_trace (Reference.unreachable Reference.ConnectionRefusedError)
       world_enabled "ls" ["-z"])
  = "bash: ls: command not found" +:+ nl.
Proof.
  refine (proj1 (failed_exchange_shows_not_found
                   (Reference.unreachable Reference.ConnectionRefusedError)
                   world_enabled "ls" ["-z"] _ Reference.ConnectionRefusedError _ _)).
  - vm_compute. reflexivity.
  - vm_compute. reflexivity.
Defined.

Lemma handler_completes_on_text_or_none_witness :
  handler_result (Reference.replying body_permission_denied) world_enabled
    "foobar" ["-x"] = Fired PyNone.
Proof.
  refine (proj1 (handler_completes_on_text_or_none
                   (Reference.replying body_permission_denied) world_enabled
                   "foobar" ["-x"] (PyStr "foobar: permission denied") _ _)).
  - vm_compute. reflexivity.
  - reflexivity.
Defined.

Lemma falsy_values_fall_back_witness :
  terminal_writes
    (handler_trace (Reference.replying body_response_zero) world_enabled "ls" [])
  = ["bash: ls: command not found" +:+ nl].
Proof.
  refine (proj1 (falsy_values_fall_back (Reference.replying body_response_zero)
                   world_enabled "ls" [] (PyInt 0) _ _)).
  - vm_compute. reflexivity.
  - reflexivity.
Defined.

Lemma truthy_non_text_breaks_handler_witness :
  command_exited
    (handler_trace (Reference.replying body_response_42) world_enabled "ls" [])
  = false.
Proof.
  refine (proj2 (truthy_non_text_breaks_handler (Reference.replying body_response_42)
                   world_enabled "ls" [] (PyInt 42) _ _ _)).
  - vm_compute. reflexivity.
  - reflexivity.
  - intros s H. discriminate H.
Defined.

Lemma handler_network_is_the_query_witness :
  network_activity
    (handler_trace (Reference.replying body_permission_denied) world_disabled "zork" [])
  = [].
Proof.
  apply (proj2 (proj2 (handler_network_is_the_query
                         (Reference.replying body_permission_denied)
                         world_disabled "zork" []))).
  reflexivity.
Defined.

Lemma client_survives_runs_witness :
  _llm_cache_client
    (fst (start (Reference.replying body_permission_denied) world_enabled "ls" []))
  = Some enabled_client.
Proof.
  refine (proj1 (proj2 (client_survives_runs
                          (Reference.replying body_permission_denied)
                          (Reference.replying body_permission_denied)
                          world_enabled "ls" "ls" [] [] env_url_not_text _))).
  right. vm_compute. reflexivity.
Defined.
